(** * texturing: a textured-mesh viewer (src/main.cpp)

    A shallow embedding of the mesh builder, the Assimp import adapter,
    the model-matrix pipeline and the render loop of [main.cpp], with the
    properties its specification states about them.

    Conventions of the embedding:
    - [uint32_t] and [size_t] values are [Z]; the one narrowing conversion
      of the program ([m.faces = faces.size()]) has its wrap-around
      written out;
    - the [float] fields of a vertex are IEEE binary32 values
      ([spec_float] at precision 24), since the program only stores and
      copies them;
    - the 4x4 matrices of GLM are taken over the real numbers, without
      the rounding of binary32: what is stated about them is limited to
      matrices whose entries the program computes without rounding (sums
      and products with 0 and 1);
    - OpenGL, SFML, the shader program and Assimp are external to the
      program: every call to them is recorded, in order, in a log, and
      the part of the OpenGL object state that the program configures
      (vertex arrays, buffers, bindings) is tracked alongside. *)

From Stdlib Require Import ZArith List String Reals Lra Floats.SpecFloat.
From stdpp Require Import base option list gmap strings.

Local Open Scope Z_scope.

(** ** Scalars *)

Definition to_uint32 (n : Z) : Z := n mod 2 ^ 32.

(** [GLsizei] is a signed 32-bit [int]: a [uint32_t] passed where a
    [GLsizei] is expected keeps its value modulo 2^32, so that a value of
    2^31 or more arrives as a negative number. *)
Definition to_GLsizei (n : Z) : Z := (n + 2 ^ 31) mod 2 ^ 32 - 2 ^ 31.

(** IEEE binary32, the [float] of the program. *)
Module F32.
Definition prec : Z := 24.
Definition emax : Z := 128.
Abbreviation t := spec_float.
Definition zero : t := S754_zero false.
Definition one : t := SFone prec emax.
Definition half : t := SFldexp prec emax one (-1).
Definition neg_half : t := SFopp half.
Definition sub : t -> t -> t := SFsub prec emax.
End F32.

(** ** Data model: [struct Vertex3D] and [struct Mesh] *)

Module Vertex3D.
Record t : Type := mk {
  x : F32.t;
  y : F32.t;
  z : F32.t;
  u : F32.t;
  v : F32.t
}.
End Vertex3D.
Abbreviation Vertex3D := Vertex3D.t.

(** [sizeof(Vertex3D)]: five 4-byte floats, no padding. *)
Definition sizeof_float : Z := 4.
Definition sizeof_uint32 : Z := 4.
Definition sizeof_Vertex3D : Z := 5 * sizeof_float.

Module Mesh.
Record t : Type := mk {
  vao : Z;
  faces : Z;
  texture : Z
}.
Definition with_vao (n : Z) (m : t) : t := mk n (faces m) (texture m).
Definition with_faces (n : Z) (m : t) : t := mk (vao m) n (texture m).
End Mesh.
Abbreviation Mesh := Mesh.t.

(** ** The OpenGL objects the program configures *)

Inductive GLenum : Type :=
| GL_ARRAY_BUFFER | GL_ELEMENT_ARRAY_BUFFER
| GL_STATIC_DRAW
| GL_FLOAT | GL_UNSIGNED_INT
| GL_TRIANGLES
| GL_TEXTURE_2D.

#[global] Instance GLenum_eq_dec : EqDecision GLenum.
Proof. solve_decision. Defined.

(** What a data pointer handed to OpenGL points at. *)
Inductive ClientData : Type :=
| VertexData (vs : list Vertex3D)
| IndexData (ixs : list Z).

Definition client_take (bytes : Z) (d : ClientData) : ClientData :=
  match d with
  | VertexData vs => VertexData (take (Z.to_nat (bytes / sizeof_Vertex3D)) vs)
  | IndexData ixs => IndexData (take (Z.to_nat (bytes / sizeof_uint32)) ixs)
  end.

Record BufferObject : Type := mkBuffer {
  buf_size : Z;
  buf_data : ClientData;
  buf_usage : GLenum
}.

Record VertexAttrib : Type := mkAttrib {
  attr_size : Z;
  attr_type : GLenum;
  attr_normalized : bool;
  attr_stride : Z;
  attr_offset : Z;
  attr_buffer : Z
}.

Record VertexArray : Type := mkVertexArray {
  va_attribs : gmap Z VertexAttrib;
  va_enabled : gset Z;
  va_element_buffer : Z
}.

Definition default_vertex_array : VertexArray := mkVertexArray ∅ ∅ 0.

Record GLState : Type := mkGL {
  gl_last_vao : Z;
  gl_last_buffer : Z;
  gl_vertex_array : Z;
  gl_array_buffer : Z;
  gl_texture_2d : Z;
  gl_vaos : gmap Z VertexArray;
  gl_buffers : gmap Z BufferObject
}.

Definition gl_init : GLState := mkGL 0 0 0 0 0 ∅ ∅.

Definition gl_set_vaos (f : gmap Z VertexArray -> gmap Z VertexArray) (g : GLState) : GLState :=
  mkGL (gl_last_vao g) (gl_last_buffer g) (gl_vertex_array g) (gl_array_buffer g)
       (gl_texture_2d g) (f (gl_vaos g)) (gl_buffers g).

Definition gl_set_buffers (f : gmap Z BufferObject -> gmap Z BufferObject) (g : GLState) : GLState :=
  mkGL (gl_last_vao g) (gl_last_buffer g) (gl_vertex_array g) (gl_array_buffer g)
       (gl_texture_2d g) (gl_vaos g) (f (gl_buffers g)).

(** The vertex array a command acts on: the bound one, when one is bound. *)
Definition gl_alter_bound (f : VertexArray -> VertexArray) (g : GLState) : GLState :=
  gl_set_vaos (alter f (gl_vertex_array g)) g.

(** The buffer bound to a target; the element-array binding belongs to the
    bound vertex array. *)
Definition gl_bound_buffer (target : GLenum) (g : GLState) : Z :=
  match target with
  | GL_ELEMENT_ARRAY_BUFFER =>
      match gl_vaos g !! gl_vertex_array g with
      | Some va => va_element_buffer va
      | None => 0
      end
  | _ => gl_array_buffer g
  end.

(** Every command the program issues, as it issues it. *)
Inductive GLCommand : Type :=
| GenVertexArrays (name : Z)
| BindVertexArray (name : Z)
| GenBuffers (name : Z)
| BindBuffer (target : GLenum) (name : Z)
| BufferData (target : GLenum) (size : Z) (data : ClientData) (usage : GLenum)
| VertexAttribPointer (index size : Z) (type : GLenum) (normalized : bool) (stride offset : Z)
| EnableVertexAttribArray (index : Z)
| BindTexture (target : GLenum) (name : Z)
| DrawElements (mode : GLenum) (count : Z) (type : GLenum)
| Clear (color depth : bool).

Definition gl_exec (c : GLCommand) (g : GLState) : GLState :=
  match c with
  | GenVertexArrays n =>
      mkGL n (gl_last_buffer g) (gl_vertex_array g) (gl_array_buffer g)
           (gl_texture_2d g) (gl_vaos g) (gl_buffers g)
  | BindVertexArray n =>
      let vaos := if decide (n = 0) then gl_vaos g
                  else match gl_vaos g !! n with
                       | Some _ => gl_vaos g
                       | None => <[n := default_vertex_array]> (gl_vaos g)
                       end in
      mkGL (gl_last_vao g) (gl_last_buffer g) n (gl_array_buffer g)
           (gl_texture_2d g) vaos (gl_buffers g)
  | GenBuffers n =>
      mkGL (gl_last_vao g) n (gl_vertex_array g) (gl_array_buffer g)
           (gl_texture_2d g) (gl_vaos g) (gl_buffers g)
  | BindBuffer GL_ELEMENT_ARRAY_BUFFER n =>
      gl_alter_bound (fun va => mkVertexArray (va_attribs va) (va_enabled va) n) g
  | BindBuffer _ n =>
      mkGL (gl_last_vao g) (gl_last_buffer g) (gl_vertex_array g) n
           (gl_texture_2d g) (gl_vaos g) (gl_buffers g)
  | BufferData target size data usage =>
      let b := gl_bound_buffer target g in
      gl_set_buffers (fun buffers =>
        if decide (b = 0) then buffers
        else <[b := mkBuffer size (client_take size data) usage]> buffers) g
  | VertexAttribPointer i size type normalized stride offset =>
      gl_alter_bound
        (fun va => mkVertexArray
           (<[i := mkAttrib size type normalized stride offset (gl_array_buffer g)]> (va_attribs va))
           (va_enabled va) (va_element_buffer va)) g
  | EnableVertexAttribArray i =>
      gl_alter_bound
        (fun va => mkVertexArray (va_attribs va) ({[i]} ∪ va_enabled va) (va_element_buffer va)) g
  | BindTexture _ n =>
      mkGL (gl_last_vao g) (gl_last_buffer g) (gl_vertex_array g) (gl_array_buffer g)
           n (gl_vaos g) (gl_buffers g)
  | DrawElements _ _ _ => g
  | Clear _ _ => g
  end.

(** ** GLM: the vectors, matrices and transforms [buildModelMatrix] uses

    [glm::mat4] is column-major: [m[i]] is column [i], [m[i][j]] its row
    [j].  [translate], [scale] and [rotate] follow GLM's
    [ext/matrix_transform.inl], [normalize], [dot] and [inversesqrt] its
    geometric and exponential functions. *)

Module glm.
Local Open Scope R_scope.

Module vec3.
Record t : Type := mk { x : R; y : R; z : R }.
End vec3.
Abbreviation vec3 := vec3.t.

Module vec4.
Record t : Type := mk { x : R; y : R; z : R; w : R }.
(** [v * s] and [a + b], componentwise. *)
Definition smul (a : t) (s : R) : t := mk (x a * s) (y a * s) (z a * s) (w a * s).
Definition add (a b : t) : t := mk (x a + x b) (y a + y b) (z a + z b) (w a + w b).
End vec4.
Abbreviation vec4 := vec4.t.

Module mat4.
Record t : Type := mk { c0 : vec4; c1 : vec4; c2 : vec4; c3 : vec4 }.
End mat4.
Abbreviation mat4 := mat4.t.

Declare Scope glm_scope.
Delimit Scope glm_scope with glm.
Infix "*." := vec4.smul (at level 40, left associativity) : glm_scope.
Infix "+." := vec4.add (at level 50, left associativity) : glm_scope.
Local Open Scope glm_scope.

(** [glm::mat4(1)]. *)
Definition identity : mat4 :=
  mat4.mk (vec4.mk 1 0 0 0) (vec4.mk 0 1 0 0) (vec4.mk 0 0 1 0) (vec4.mk 0 0 0 1).

Definition dot (a b : vec3) : R :=
  vec3.x a * vec3.x b + vec3.y a * vec3.y b + vec3.z a * vec3.z b.

Definition inversesqrt (r : R) : R := 1 / sqrt r.

Definition normalize (a : vec3) : vec3 :=
  let k := inversesqrt (dot a a) in
  vec3.mk (vec3.x a * k) (vec3.y a * k) (vec3.z a * k).

Definition translate (m : mat4) (d : vec3) : mat4 :=
  mat4.mk (mat4.c0 m) (mat4.c1 m) (mat4.c2 m)
    (mat4.c0 m *. vec3.x d +. mat4.c1 m *. vec3.y d +. mat4.c2 m *. vec3.z d +. mat4.c3 m).

Definition scale (m : mat4) (k : vec3) : mat4 :=
  mat4.mk (mat4.c0 m *. vec3.x k) (mat4.c1 m *. vec3.y k) (mat4.c2 m *. vec3.z k) (mat4.c3 m).

Definition rotate (m : mat4) (angle : R) (about : vec3) : mat4 :=
  let a := angle in
  let c := cos a in
  let s := sin a in
  let axis := normalize about in
  let temp := vec3.mk ((1 - c) * vec3.x axis) ((1 - c) * vec3.y axis) ((1 - c) * vec3.z axis) in
  let r00 := c + vec3.x temp * vec3.x axis in
  let r01 := vec3.x temp * vec3.y axis + s * vec3.z axis in
  let r02 := vec3.x temp * vec3.z axis - s * vec3.y axis in
  let r10 := vec3.y temp * vec3.x axis - s * vec3.z axis in
  let r11 := c + vec3.y temp * vec3.y axis in
  let r12 := vec3.y temp * vec3.z axis + s * vec3.x axis in
  let r20 := vec3.z temp * vec3.x axis + s * vec3.y axis in
  let r21 := vec3.z temp * vec3.y axis - s * vec3.x axis in
  let r22 := c + vec3.z temp * vec3.z axis in
  mat4.mk
    (mat4.c0 m *. r00 +. mat4.c1 m *. r01 +. mat4.c2 m *. r02)
    (mat4.c0 m *. r10 +. mat4.c1 m *. r11 +. mat4.c2 m *. r12)
    (mat4.c0 m *. r20 +. mat4.c1 m *. r21 +. mat4.c2 m *. r22)
    (mat4.c3 m).

(** [a * b], GLM's matrix product: column [j] of the result is [a]
    applied to column [j] of [b]. *)
Definition apply (a : mat4) (b : vec4) : vec4 :=
  mat4.c0 a *. vec4.x b +. mat4.c1 a *. vec4.y b +. mat4.c2 a *. vec4.z b +. mat4.c3 a *. vec4.w b.

Definition mul (a b : mat4) : mat4 :=
  mat4.mk (apply a (mat4.c0 b)) (apply a (mat4.c1 b)) (apply a (mat4.c2 b)) (apply a (mat4.c3 b)).
End glm.

Infix "×" := glm.mul (at level 40, left associativity).

(** ** The transform pipeline: [buildModelMatrix] *)

Definition buildModelMatrix (position orientation scale : glm.vec3) : glm.mat4 :=
  let m := glm.translate glm.identity position in
  let m := glm.scale m scale in
  let m := glm.rotate m (glm.vec3.z orientation) (glm.vec3.mk 0 0 1) in
  let m := glm.rotate m (glm.vec3.x orientation) (glm.vec3.mk 1 0 0) in
  let m := glm.rotate m (glm.vec3.y orientation) (glm.vec3.mk 0 1 0) in
  m.

(** The same pipeline with the three rotations applied in a given order of
    axes; [buildModelMatrix] is the order Z, X, Y. *)
Inductive Axis : Type := AxisX | AxisY | AxisZ.

#[global] Instance Axis_eq_dec : EqDecision Axis.
Proof. solve_decision. Defined.

Definition axis_vector (a : Axis) : glm.vec3 :=
  match a with
  | AxisX => glm.vec3.mk 1 0 0
  | AxisY => glm.vec3.mk 0 1 0
  | AxisZ => glm.vec3.mk 0 0 1
  end.

Definition axis_angle (orientation : glm.vec3) (a : Axis) : R :=
  match a with
  | AxisX => glm.vec3.x orientation
  | AxisY => glm.vec3.y orientation
  | AxisZ => glm.vec3.z orientation
  end.

Definition modelMatrixInOrder (order : list Axis) (position orientation scale : glm.vec3) : glm.mat4 :=
  fold_left (fun m a => glm.rotate m (axis_angle orientation a) (axis_vector a)) order
    (glm.scale (glm.translate glm.identity position) scale).

(** The matrices the specification composes, as written in a textbook. *)
Module Spec.
Local Open Scope R_scope.

Definition translation (d : glm.vec3) : glm.mat4 :=
  glm.mat4.mk (glm.vec4.mk 1 0 0 0) (glm.vec4.mk 0 1 0 0) (glm.vec4.mk 0 0 1 0)
    (glm.vec4.mk (glm.vec3.x d) (glm.vec3.y d) (glm.vec3.z d) 1).

Definition scaling (k : glm.vec3) : glm.mat4 :=
  glm.mat4.mk (glm.vec4.mk (glm.vec3.x k) 0 0 0) (glm.vec4.mk 0 (glm.vec3.y k) 0 0)
    (glm.vec4.mk 0 0 (glm.vec3.z k) 0) (glm.vec4.mk 0 0 0 1).

Definition rotateX (a : R) : glm.mat4 :=
  glm.mat4.mk (glm.vec4.mk 1 0 0 0) (glm.vec4.mk 0 (cos a) (sin a) 0)
    (glm.vec4.mk 0 (- sin a) (cos a) 0) (glm.vec4.mk 0 0 0 1).

Definition rotateY (a : R) : glm.mat4 :=
  glm.mat4.mk (glm.vec4.mk (cos a) 0 (- sin a) 0) (glm.vec4.mk 0 1 0 0)
    (glm.vec4.mk (sin a) 0 (cos a) 0) (glm.vec4.mk 0 0 0 1).

Definition rotateZ (a : R) : glm.mat4 :=
  glm.mat4.mk (glm.vec4.mk (cos a) (sin a) 0 0) (glm.vec4.mk (- sin a) (cos a) 0 0)
    (glm.vec4.mk 0 0 1 0) (glm.vec4.mk 0 0 0 1).
End Spec.

Definition spec_rotation (a : Axis) : R -> glm.mat4 :=
  match a with
  | AxisX => Spec.rotateX
  | AxisY => Spec.rotateY
  | AxisZ => Spec.rotateZ
  end.

(** ** The world outside the program

    Window events, the clock and the shader program are SFML's and the
    shader abstraction's; a call to them is logged with what it returned
    or was given. *)

Inductive EventType : Type :=
| Closed | Resized | LostFocus | GainedFocus | TextEntered
| KeyPressed | KeyReleased | MouseMoved | OtherEvent.

#[global] Instance EventType_eq_dec : EqDecision EventType.
Proof. solve_decision. Defined.

(** The matrices pushed as uniforms: view and projection are GLM's
    [lookAt] and [perspective] of the given arguments, the model matrix is
    the value [buildModelMatrix] computed. *)
Inductive UniformValue : Type :=
| LookAt (eye center up : glm.vec3)
| Perspective (fovy_degrees : R) (width height : Z) (near far : R)
| Matrix (m : glm.mat4).

Inductive Call : Type :=
| GL (c : GLCommand)
| Enable_DEPTH_TEST
| ReadFile (path : string) (flags : Z)
| Stdout (text : string)
| PollEvent (ev : option EventType)
| GetElapsedTime (t : Z)
| PrintFps (diff : Z)
| GetSize (width height : Z)
| SetUniform (name : string) (value : UniformValue)
| Display.

Record World : Type := mkWorld {
  gl : GLState;
  log : list Call
}.

Definition world_init : World := mkWorld gl_init [].

(** ** Programs: state passing with the three ways not to return *)

Inductive Fault : Type :=
| IndexOutOfRange (index size : nat).

Inductive outcome (A : Type) : Type :=
| Returns (a : A) (w : World)
| Exits (status : Z) (w : World)
| Undefined (f : Fault) (w : World)
| Starved (w : World).
Arguments Returns {A} a w.
Arguments Exits {A} status w.
Arguments Undefined {A} f w.
Arguments Starved {A} w.

Definition Prog (A : Type) : Type := World -> outcome A.

#[global] Instance Prog_ret : MRet Prog := fun A a w => Returns a w.
#[global] Instance Prog_bind : MBind Prog := fun A B k p w =>
  match p w with
  | Returns a w' => k a w'
  | Exits status w' => Exits status w'
  | Undefined f w' => Undefined f w'
  | Starved w' => Starved w'
  end.

(** A call to the outside: it is appended to the log, and an OpenGL
    command also acts on the OpenGL state. *)
Definition record (c : Call) (w : World) : World :=
  mkWorld (match c with GL g => gl_exec g (gl w) | _ => gl w end) (log w ++ [c]).

Definition call (c : Call) : Prog unit := fun w => Returns tt (record c w).

Definition exit {A : Type} (status : Z) : Prog A := fun w => Exits status w.

Definition starve {A : Type} : Prog A := fun w => Starved w.

(** [a[i]] on a vector or a C array of [length a] elements: reading past
    the end is undefined. *)
Definition at_index {A : Type} (a : list A) (i : nat) : Prog A := fun w =>
  match a !! i with
  | Some e => Returns e w
  | None => Undefined (IndexOutOfRange i (length a)) w
  end.

(** [&a[i]]: the elements from [i] on, which is what a reader of the
    pointer can reach. *)
Definition address_of_index {A : Type} (a : list A) (i : nat) : Prog (list A) := fun w =>
  match a !! i with
  | Some _ => Returns (drop i a) w
  | None => Undefined (IndexOutOfRange i (length a)) w
  end.

(** [for (size_t i = start; i < start + n; i++) body], threading the
    variables the body updates. *)
Fixpoint for_loop {St : Type} (n : nat) (i : nat) (body : nat -> St -> Prog St) (s : St) : Prog St :=
  match n with
  | O => mret s
  | S n' => s' ← body i s; for_loop n' (S i) body s'
  end.

(** What a program returned, when it did, and the world it left. *)
Definition result {A : Type} (o : outcome A) : option A :=
  match o with
  | Returns a _ => Some a
  | _ => None
  end.

Definition world_of {A : Type} (o : outcome A) : World :=
  match o with
  | Returns _ w | Exits _ w | Undefined _ w | Starved w => w
  end.

(** A run of commands, and the calls a program added to the log. *)
Definition gl_run (cmds : list GLCommand) (g : GLState) : GLState :=
  fold_left (fun g c => gl_exec c g) cmds g.

Definition issue (cmds : list GLCommand) (w : World) : World :=
  mkWorld (gl_run cmds (gl w)) (log w ++ (GL <$> cmds)).

Definition issued {A : Type} (p : Prog A) (w : World) : list Call :=
  drop (length (log w)) (log (world_of (p w))).

(** The world after a sequence of calls. *)
Definition perform (calls : list Call) (w : World) : World :=
  fold_left (fun w c => record c w) calls w.

(** *** OpenGL entry points *)

Definition glGenVertexArrays : Prog Z := fun w =>
  let n := gl_last_vao (gl w) + 1 in
  (call (GL (GenVertexArrays n));; mret n) w.

Definition glGenBuffers : Prog Z := fun w =>
  let n := gl_last_buffer (gl w) + 1 in
  (call (GL (GenBuffers n));; mret n) w.

Definition glBindVertexArray (n : Z) : Prog unit := call (GL (BindVertexArray n)).
Definition glBindBuffer (target : GLenum) (n : Z) : Prog unit := call (GL (BindBuffer target n)).
Definition glBufferData (target : GLenum) (size : Z) (data : ClientData) (usage : GLenum) : Prog unit :=
  call (GL (BufferData target size data usage)).
Definition glVertexAttribPointer (index size : Z) (type : GLenum) (normalized : bool)
    (stride offset : Z) : Prog unit :=
  call (GL (VertexAttribPointer index size type normalized stride offset)).
Definition glEnableVertexAttribArray (index : Z) : Prog unit :=
  call (GL (EnableVertexAttribArray index)).
Definition glBindTexture (target : GLenum) (n : Z) : Prog unit := call (GL (BindTexture target n)).
Definition glDrawElements (mode : GLenum) (count : Z) (type : GLenum) : Prog unit :=
  call (GL (DrawElements mode count type)).
Definition glClear (color depth : bool) : Prog unit := call (GL (Clear color depth)).

(** ** The mesh builder: [constructMesh] *)

Definition size_of {A : Type} (a : list A) : Z := Z.of_nat (length a).

Definition constructMesh (vertices : list Vertex3D) (faces : list Z) : Prog Mesh :=
  let m := Mesh.mk 0 0 0 in
  let m := Mesh.with_faces (to_uint32 (size_of faces)) m in
  name ← glGenVertexArrays;
  let m := Mesh.with_vao name m in
  glBindVertexArray (Mesh.vao m);;
  vbo ← glGenBuffers;
  glBindBuffer GL_ARRAY_BUFFER vbo;;
  data ← address_of_index vertices 0;
  glBufferData GL_ARRAY_BUFFER (size_of vertices * sizeof_Vertex3D) (VertexData data) GL_STATIC_DRAW;;
  glVertexAttribPointer 0 3 GL_FLOAT false sizeof_Vertex3D 0;;
  glEnableVertexAttribArray 0;;
  ebo ← glGenBuffers;
  glBindBuffer GL_ELEMENT_ARRAY_BUFFER ebo;;
  data ← address_of_index faces 0;
  glBufferData GL_ELEMENT_ARRAY_BUFFER (size_of faces * sizeof_uint32) (IndexData data) GL_STATIC_DRAW;;
  glBindVertexArray 0;;
  mret m.

(** The commands [constructMesh] issues when it runs to its end, given the
    names [glGenVertexArrays] and the first [glGenBuffers] hand out. *)
Definition constructMesh_commands (vao vbo : Z) (vertices : list Vertex3D) (faces : list Z)
    : list GLCommand :=
  [ GenVertexArrays vao; BindVertexArray vao;
    GenBuffers vbo; BindBuffer GL_ARRAY_BUFFER vbo;
    BufferData GL_ARRAY_BUFFER (size_of vertices * sizeof_Vertex3D) (VertexData vertices)
      GL_STATIC_DRAW;
    VertexAttribPointer 0 3 GL_FLOAT false sizeof_Vertex3D 0;
    EnableVertexAttribArray 0;
    GenBuffers (vbo + 1); BindBuffer GL_ELEMENT_ARRAY_BUFFER (vbo + 1);
    BufferData GL_ELEMENT_ARRAY_BUFFER (size_of faces * sizeof_uint32) (IndexData faces)
      GL_STATIC_DRAW;
    BindVertexArray 0 ].

(** The preconditions the specification puts on the input of the mesh
    builder: whole triangles, every index that of a vertex. *)
Definition valid_input (vertices : list Vertex3D) (indices : list Z) : Prop :=
  size_of indices mod 3 = 0 /\ Forall (fun i => 0 <= i < size_of vertices) indices.

(** The vertex-attribute layout commands in a log. *)
Definition attribute_commands (l : list Call) : list GLCommand :=
  omap (fun c => match c with
                 | GL (VertexAttribPointer i s t n st o) => Some (VertexAttribPointer i s t n st o)
                 | _ => None
                 end) l.

Definition triangleVertices : list Vertex3D :=
  [ Vertex3D.mk F32.neg_half F32.neg_half F32.zero F32.zero F32.one;
    Vertex3D.mk F32.neg_half F32.half F32.zero F32.zero F32.zero;
    Vertex3D.mk F32.half F32.half F32.zero F32.one F32.zero ].

Definition triangleFaces : list Z := [2; 1; 0].

Definition drawMesh (m : Mesh) : Prog unit :=
  glBindTexture GL_TEXTURE_2D (Mesh.texture m);;
  glBindVertexArray (Mesh.vao m);;
  glDrawElements GL_TRIANGLES (to_GLsizei (Mesh.faces m)) GL_UNSIGNED_INT;;
  glBindVertexArray 0;;
  glBindTexture GL_TEXTURE_2D 0.

(** ** Assimp: the scene the importer hands back

    A C array with its element count is a list ([mNumVertices] is the
    length of [mVertices], and so on); a texture-coordinate channel that
    the mesh does not have is a null pointer, [None]. *)

Module aiVector3D.
Record t : Type := mk { x : F32.t; y : F32.t; z : F32.t }.
End aiVector3D.
Abbreviation aiVector3D := aiVector3D.t.

Module aiFace.
Record t : Type := mk { mIndices : list Z }.
Definition mNumIndices (f : t) : nat := length (mIndices f).
End aiFace.
Abbreviation aiFace := aiFace.t.

Module aiMesh.
Record t : Type := mk {
  mVertices : list aiVector3D;
  mTextureCoords : list (option (list aiVector3D));
  mFaces : list aiFace
}.
Definition mNumVertices (m : t) : nat := length (mVertices m).
Definition mNumFaces (m : t) : nat := length (mFaces m).
End aiMesh.
Abbreviation aiMesh := aiMesh.t.

Module aiScene.
Record t : Type := mk { mMeshes : list aiMesh }.
Definition mNumMeshes (s : t) : nat := length (mMeshes s).
End aiScene.
Abbreviation aiScene := aiScene.t.

(** The post-processing steps of [assimp/postprocess.h], one bit each. *)
Definition aiProcess_CalcTangentSpace : Z := 0x1.
Definition aiProcess_JoinIdenticalVertices : Z := 0x2.
Definition aiProcess_Triangulate : Z := 0x8.
Definition aiProcess_GenSmoothNormals : Z := 0x40.
Definition aiProcess_SplitLargeMeshes : Z := 0x80.
Definition aiProcess_LimitBoneWeights : Z := 0x200.
Definition aiProcess_ValidateDataStructure : Z := 0x400.
Definition aiProcess_ImproveCacheLocality : Z := 0x800.
Definition aiProcess_RemoveRedundantMaterials : Z := 0x1000.
Definition aiProcess_SortByPType : Z := 0x8000.
Definition aiProcess_FindDegenerates : Z := 0x10000.
Definition aiProcess_FindInvalidData : Z := 0x20000.
Definition aiProcess_GenUVCoords : Z := 0x40000.
Definition aiProcess_FindInstances : Z := 0x100000.
Definition aiProcess_OptimizeMeshes : Z := 0x200000.
Definition aiProcess_FlipUVs : Z := 0x800000.

Definition aiProcessPreset_TargetRealtime_Quality : Z :=
  fold_right Z.lor 0
    [ aiProcess_CalcTangentSpace; aiProcess_GenSmoothNormals;
      aiProcess_JoinIdenticalVertices; aiProcess_ImproveCacheLocality;
      aiProcess_LimitBoneWeights; aiProcess_RemoveRedundantMaterials;
      aiProcess_SplitLargeMeshes; aiProcess_Triangulate;
      aiProcess_GenUVCoords; aiProcess_SortByPType;
      aiProcess_FindDegenerates; aiProcess_FindInvalidData ].

Definition aiProcessPreset_TargetRealtime_MaxQuality : Z :=
  fold_right Z.lor 0
    [ aiProcessPreset_TargetRealtime_Quality; aiProcess_FindInstances;
      aiProcess_ValidateDataStructure; aiProcess_OptimizeMeshes ].

(** Assimp's [FlipUVsProcess]: [v := 1 - v] on every texture coordinate
    of every channel of every mesh. *)
Definition flip_uv (t : aiVector3D) : aiVector3D :=
  aiVector3D.mk (aiVector3D.x t) (F32.sub F32.one (aiVector3D.y t)) (aiVector3D.z t).

Definition FlipUVs_mesh (m : aiMesh) : aiMesh :=
  aiMesh.mk (aiMesh.mVertices m)
    (fmap (M := list) (fmap (M := option) (fmap (M := list) flip_uv)) (aiMesh.mTextureCoords m))
    (aiMesh.mFaces m).

Definition FlipUVs_scene (s : aiScene) : aiScene :=
  aiScene.mk (FlipUVs_mesh <$> aiScene.mMeshes s).

(** What the importer makes of each path under the steps of the preset:
    a scene, or the error string of a failed import.  [ReadFile] applies
    the UV flip to it when the flag asks for it. *)
Definition Assets : Type := string -> string + aiScene.

Definition Importer_ReadFile (assets : Assets) (path : string) (flags : Z) : Prog (string + aiScene) :=
  call (ReadFile path flags);;
  mret (match assets path with
        | inl err => inl err
        | inr scene =>
            inr (if Z.testbit flags 23 then FlipUVs_scene scene else scene)
        end).

(** ** The asset import adapter: [fromAssimpMesh] and [assimpLoad]

    [{x, y, z}] initialises the first three fields of a [Vertex3D] and
    leaves [u] and [v] zero; [faces.reserve] changes no value and is left
    out. *)

Definition endl : string := String (Ascii.ascii_of_nat 10) EmptyString.

Definition FLOATS_PER_VERTEX : nat := 3.
Definition VERTICES_PER_FACE : nat := 3.

Definition fromAssimpMesh (mesh : aiMesh) (vertices : list Vertex3D) (faces : list Z)
    : Prog (list Vertex3D * list Z) :=
  vertices ← for_loop (aiMesh.mNumVertices mesh) 0 (fun i vertices =>
    p ← at_index (aiMesh.mVertices mesh) i;
    mret (vertices ++ [Vertex3D.mk (aiVector3D.x p) (aiVector3D.y p) (aiVector3D.z p)
                         F32.zero F32.zero])) vertices;
  faces ← for_loop (aiMesh.mNumFaces mesh) 0 (fun i faces =>
    f ← at_index (aiMesh.mFaces mesh) i;
    i0 ← at_index (aiFace.mIndices f) 0;
    let faces := faces ++ [i0] in
    i1 ← at_index (aiFace.mIndices f) 1;
    let faces := faces ++ [i1] in
    i2 ← at_index (aiFace.mIndices f) 2;
    let faces := faces ++ [i2] in
    mret faces) faces;
  mret (vertices, faces).

Definition assimpLoad (assets : Assets) (path : string) (flipUvs : bool) : Prog Mesh :=
  let flags := aiProcessPreset_TargetRealtime_MaxQuality in
  let flags := if flipUvs then Z.lor flags aiProcess_FlipUVs else flags in
  scene ← Importer_ReadFile assets path flags;
  match scene with
  | inl error_string =>
      call (Stdout ("ASSIMP ERROR" ++ error_string ++ endl));;
      exit 1
  | inr scene =>
      let vertices := [] in
      let faces := [] in
      mesh ← at_index (aiScene.mMeshes scene) 0;
      '(vertices, faces) ← fromAssimpMesh mesh vertices faces;
      constructMesh vertices faces
  end.

(** What [fromAssimpMesh] makes of one source vertex, and the import
    flags [assimpLoad] passes to the importer. *)
Definition imported_vertex (p : aiVector3D) : Vertex3D :=
  Vertex3D.mk (aiVector3D.x p) (aiVector3D.y p) (aiVector3D.z p) F32.zero F32.zero.

Definition import_flags (flipUvs : bool) : Z :=
  if flipUvs then Z.lor aiProcessPreset_TargetRealtime_MaxQuality aiProcess_FlipUVs
  else aiProcessPreset_TargetRealtime_MaxQuality.

(** The (u, v) the first UV channel of a source mesh gives a vertex, and
    the (u, v) of an emitted vertex record. *)
Definition first_uv (mesh : aiMesh) (i : nat) : option (F32.t * F32.t) :=
  match aiMesh.mTextureCoords mesh with
  | Some channel :: _ => (fun t => (aiVector3D.x t, aiVector3D.y t)) <$> channel !! i
  | _ => None
  end.

Definition uv_of (p : Vertex3D) : F32.t * F32.t := (Vertex3D.u p, Vertex3D.v p).

(** The branch of [assimpLoad] that has a scene. *)
Definition load_first_mesh (meshes : list aiMesh) : Prog Mesh :=
  mesh ← at_index meshes 0;
  '(vertices, faces) ← fromAssimpMesh mesh [] [];
  constructMesh vertices faces.

(** A source mesh as the importer validates it: triangles only, every
    index that of a vertex of the mesh. *)
Definition triangular (mesh : aiMesh) : Prop :=
  Forall (fun f => aiFace.mNumIndices f = 3%nat) (aiMesh.mFaces mesh).

Definition indices_in_range (mesh : aiMesh) : Prop :=
  Forall (fun f => Forall (fun i => 0 <= i < Z.of_nat (aiMesh.mNumVertices mesh))
                     (aiFace.mIndices f))
         (aiMesh.mFaces mesh).

(** A program that neither reads nor changes the world. *)
Definition world_independent {A : Type} (p : Prog A) : Prop :=
  exists r : Fault + A,
    forall w, p w = match r with inl f => Undefined f w | inr a => Returns a w end.

(** Test assets: a triangle with texture coordinates, and a cube of 8
    vertices and 12 triangles. *)
Definition texturedTriangle : aiMesh :=
  aiMesh.mk
    [ aiVector3D.mk F32.neg_half F32.neg_half F32.zero;
      aiVector3D.mk F32.neg_half F32.half F32.zero;
      aiVector3D.mk F32.half F32.half F32.zero ]
    [ Some [ aiVector3D.mk F32.zero F32.one F32.zero;
             aiVector3D.mk F32.zero F32.zero F32.zero;
             aiVector3D.mk F32.one F32.zero F32.zero ] ]
    [ aiFace.mk [2; 1; 0] ].

Definition cube : aiMesh :=
  let h := F32.half in
  let n := F32.neg_half in
  aiMesh.mk
    [ aiVector3D.mk n n n; aiVector3D.mk h n n; aiVector3D.mk h h n; aiVector3D.mk n h n;
      aiVector3D.mk n n h; aiVector3D.mk h n h; aiVector3D.mk h h h; aiVector3D.mk n h h ]
    []
    (aiFace.mk <$>
       [ [0; 2; 1]; [0; 3; 2]; [4; 5; 6]; [4; 6; 7]; [0; 1; 5]; [0; 5; 4];
         [3; 7; 6]; [3; 6; 2]; [0; 4; 7]; [0; 7; 3]; [1; 2; 6]; [1; 6; 5] ]).

Definition assets_of (scene : aiScene) : Assets := fun _ => inr scene.

(** ** The render loop of [main]

    One [Frame] is what the outside world supplies to one iteration: the
    window events pending when the iteration drains them, the clock
    reading, and the size of the window. *)

Record Frame : Type := mkFrame {
  frame_events : list EventType;
  frame_now : Z;
  frame_size : Z * Z
}.

(** [while (window.pollEvent(ev)) if (ev.type == Closed) running = false;] *)
Fixpoint drainEvents (pending : list EventType) (running : bool) : Prog bool :=
  match pending with
  | [] => call (PollEvent None);; mret running
  | ev :: pending =>
      call (PollEvent (Some ev));;
      let running := if decide (ev = Closed) then false else running in
      drainEvents pending running
  end.

(** The calls of the event-drain phase, and the value of [running] it
    leaves: [false] once a close event has been seen. *)
Definition drain_log (events : list EventType) : list Call :=
  ((fun ev => PollEvent (Some ev)) <$> events) ++ [PollEvent None].

Definition still_running (events : list EventType) (running : bool) : bool :=
  if bool_decide (Closed ∈ events) then false else running.

Definition drawMesh_commands (m : Mesh) : list GLCommand :=
  [ BindTexture GL_TEXTURE_2D (Mesh.texture m);
    BindVertexArray (Mesh.vao m);
    DrawElements GL_TRIANGLES (to_GLsizei (Mesh.faces m)) GL_UNSIGNED_INT;
    BindVertexArray 0;
    BindTexture GL_TEXTURE_2D 0 ].

(** Modelled from the spec: [ShaderProgram::setUniform], whose source
    ([ShaderProgram.h]) is not among the files; the shader-program
    collaborator sets a named uniform parameter of 4x4-matrix type, which
    is recorded as a call. *)
Definition setUniform (name : string) (value : UniformValue) : Prog unit :=
  call (SetUniform name value).

Section RenderLoop.
Variables (obj : Mesh) (objectPosition objectOrientation objectScale : glm.vec3).

(** The body of [while (running)], returning the updated [running] and
    [last]. *)
Definition iteration (f : Frame) (running : bool) (last : Z) : Prog (bool * Z) :=
  running ← drainEvents (frame_events f) running;
  call (GetElapsedTime (frame_now f));;
  let now := frame_now f in
  let diff := now - last in
  call (PrintFps diff);;
  let last := now in
  (* the two [window.getSize()] of the aspect ratio *)
  call (GetSize (frame_size f).1 (frame_size f).2);;
  call (GetSize (frame_size f).1 (frame_size f).2);;
  let camera := LookAt (glm.vec3.mk 0 0 0) (glm.vec3.mk 0 0 (-1)) (glm.vec3.mk 0 1 0) in
  let perspective := Perspective 45 (frame_size f).1 (frame_size f).2 (1 / 10) 100 in
  setUniform "view" camera;;
  setUniform "projection" perspective;;
  let model := buildModelMatrix objectPosition objectOrientation objectScale in
  setUniform "model" (Matrix model);;
  glClear true true;;
  drawMesh obj;;
  call Display;;
  mret (running, last).

(** [while (running) { ... }] over the frames the world supplies; the
    script running out before a close event leaves the loop waiting. *)
Fixpoint renderLoop (frames : list Frame) (running : bool) (last : Z) : Prog unit :=
  if running then
    match frames with
    | [] => starve
    | f :: frames =>
        '(running, last) ← iteration f running last;
        renderLoop frames running last
    end
  else mret tt.

(** [main] from [bool running = true] to [return 0]. *)
Definition main_loop (start : Z) (frames : list Frame) : Prog Z :=
  let running := true in
  call Enable_DEPTH_TEST;;
  call (GetElapsedTime start);;
  let last := start in
  renderLoop frames running last;;
  mret 0.

(** The calls of one iteration, in order, and of a run of iterations. *)
Definition iteration_log (f : Frame) (last : Z) : list Call :=
  drain_log (frame_events f)
  ++ [ GetElapsedTime (frame_now f);
       PrintFps (frame_now f - last);
       GetSize (frame_size f).1 (frame_size f).2;
       GetSize (frame_size f).1 (frame_size f).2;
       SetUniform "view"
         (LookAt (glm.vec3.mk 0 0 0) (glm.vec3.mk 0 0 (-1)) (glm.vec3.mk 0 1 0));
       SetUniform "projection"
         (Perspective 45 (frame_size f).1 (frame_size f).2 (1 / 10) 100);
       SetUniform "model"
         (Matrix (buildModelMatrix objectPosition objectOrientation objectScale));
       GL (Clear true true) ]
  ++ (GL <$> drawMesh_commands obj)
  ++ [ Display ].

Fixpoint frames_log (last : Z) (frames : list Frame) : list Call :=
  match frames with
  | [] => []
  | f :: frames => iteration_log f last ++ frames_log (frame_now f) frames
  end.
End RenderLoop.

(** The specification's reading of a close event: the loop is Stopped as
    soon as the event is seen, and drawing is a step of Running only, so
    no draw command follows the poll that delivered a close event. *)
Definition is_draw (c : Call) : bool :=
  match c with
  | GL (DrawElements _ _ _) => true
  | _ => false
  end.

Definition stops_before_next_draw (l : list Call) : Prop :=
  forall pre post : list Call,
    l = pre ++ PollEvent (Some Closed) :: post -> Forall (fun c => is_draw c = false) post.

(** A window that delivers a close event in its first frame. *)
Definition closing_frame : Frame := mkFrame [Closed] 16 (1200, 800).


(** ** What [constructMesh] leaves behind *)

(** The vertex array a name stands for when it is bound: the object it
    already names, or a new one in its default state. *)
Definition bound_or_default (g : GLState) (n : Z) : VertexArray :=
  default default_vertex_array (gl_vaos g !! n).

(** The vertex array, vertex buffer and index buffer of a mesh built from
    [vertices] and [faces] with the buffer name [vbo]. *)
Definition mesh_vertex_array (va : VertexArray) (vbo : Z) : VertexArray :=
  mkVertexArray
    (<[0 := mkAttrib 3 GL_FLOAT false sizeof_Vertex3D 0 vbo]> (va_attribs va))
    ({[0]} ∪ va_enabled va) (vbo + 1).

Definition mesh_vertex_buffer (vertices : list Vertex3D) : BufferObject :=
  mkBuffer (size_of vertices * sizeof_Vertex3D) (VertexData vertices) GL_STATIC_DRAW.

Definition mesh_index_buffer (faces : list Z) : BufferObject :=
  mkBuffer (size_of faces * sizeof_uint32) (IndexData faces) GL_STATIC_DRAW.

(** A state OpenGL can be in: the names of its vertex arrays and buffers
    are positive and were all handed out by [glGen...]. *)
Definition gl_wf (g : GLState) : Prop :=
  0 <= gl_last_vao g /\ 0 <= gl_last_buffer g
  /\ (forall n, is_Some (gl_vaos g !! n) -> 0 < n <= gl_last_vao g)
  /\ (forall n, is_Some (gl_buffers g !! n) -> 0 < n <= gl_last_buffer g).

(** The mesh [m] is resident in the state: its vertex array reads
    attribute 0, three floats per 20-byte record, from a buffer holding
    [vertices], its element buffer holds [faces], and its face count is
    their number. *)
Definition mesh_resident (g : GLState) (m : Mesh) (vertices : list Vertex3D) (faces : list Z)
    : Prop :=
  Mesh.faces m = to_uint32 (size_of faces)
  /\ exists (va : VertexArray) (vbo : Z),
       gl_vaos g !! Mesh.vao m = Some va
       /\ va_attribs va !! 0 = Some (mkAttrib 3 GL_FLOAT false sizeof_Vertex3D 0 vbo)
       /\ 0 ∈ va_enabled va
       /\ gl_buffers g !! vbo = Some (mesh_vertex_buffer vertices)
       /\ gl_buffers g !! va_element_buffer va = Some (mesh_index_buffer faces).

(** The draw commands in a log. *)
Definition draw_commands (l : list Call) : list GLCommand :=
  omap (fun c => match c with
                 | GL (DrawElements mode count type) => Some (DrawElements mode count type)
                 | _ => None
                 end) l.

(** The OpenGL commands in a log, and the frames presented in it. *)
Definition gl_commands (l : list Call) : list GLCommand :=
  omap (fun c => match c with GL g => Some g | _ => None end) l.

Definition frames_presented (l : list Call) : nat :=
  length (omap (fun c => match c with Display => Some tt | _ => None end) l).

(** [g'] has the objects of [g]: the same buffers, the same names handed
    out, the same array-buffer binding, and every vertex array of [g]
    unchanged. *)
Definition same_objects (g g' : GLState) : Prop :=
  gl_buffers g' = gl_buffers g
  /\ gl_last_vao g' = gl_last_vao g
  /\ gl_last_buffer g' = gl_last_buffer g
  /\ gl_array_buffer g' = gl_array_buffer g
  /\ (forall n, is_Some (gl_vaos g !! n) -> gl_vaos g' !! n = gl_vaos g !! n).

(** The indices [fromAssimpMesh] takes from a face: the first three. *)
Definition face_indices (f : aiFace) : list Z := take 3 (aiFace.mIndices f).

(** ** More on matrices: affine maps *)


(** ** Textures, the shader program and the start of [main]

    The calls below go to parts of OpenGL and to collaborators that the
    mesh builder and the render loop do not touch; they have a state and a
    log of their own, kept beside the [World]. *)

Inductive TexEnum : Type :=
| GL_TEXTURE_WRAP_S | GL_TEXTURE_WRAP_T | GL_TEXTURE_MIN_FILTER | GL_TEXTURE_MAG_FILTER
| GL_REPEAT | GL_LINEAR | GL_LINEAR_MIPMAP_LINEAR | GL_NEAREST_MIPMAP_LINEAR
| GL_RGBA | GL_UNSIGNED_BYTE.

Record TexImage : Type := mkTexImage {
  img_internalformat : TexEnum;
  img_width : Z;
  img_height : Z;
  img_format : TexEnum;
  img_type : TexEnum;
  img_pixels : list Z
}.

Record TextureObject : Type := mkTexture {
  tex_wrap_s : TexEnum;
  tex_wrap_t : TexEnum;
  tex_min_filter : TexEnum;
  tex_mag_filter : TexEnum;
  tex_image : option TexImage;
  tex_mipmaps : bool
}.

(** A texture object as OpenGL creates it. *)
Definition default_texture : TextureObject :=
  mkTexture GL_REPEAT GL_REPEAT GL_NEAREST_MIPMAP_LINEAR GL_LINEAR None false.

Inductive TexCommand : Type :=
| GenTextures (name : Z)
| TexParameteri (target : GLenum) (pname param : TexEnum)
| TexImage2D (target : GLenum) (level : Z) (internalformat : TexEnum)
    (width height border : Z) (format type : TexEnum) (pixels : list Z)
| GenerateMipmap (target : GLenum).

Record ContextSettings : Type := mkContextSettings {
  depthBits : Z;
  stencilBits : Z;
  antialiasingLevel : Z;
  majorVersion : Z;
  minorVersion : Z
}.

Inductive WindowStyle : Type := Style_Resize | Style_Close.

Inductive ExtCall : Type :=
| Tex (c : TexCommand)
| LoadFromFile (path : string)
| ShaderLoad (vertex fragment : string)
| Activate
| CreateWindow (width height : Z) (title : string) (style : list WindowStyle)
    (settings : ContextSettings)
| GladLoadGL.

Record Ext : Type := mkExt {
  tex_last : Z;
  tex_objects : gmap Z TextureObject;
  ext_log : list ExtCall
}.

Definition ext_init : Ext := mkExt 0 ∅ [].

Definition set_parameter (pname param : TexEnum) (t : TextureObject) : TextureObject :=
  match pname with
  | GL_TEXTURE_WRAP_S =>
      mkTexture param (tex_wrap_t t) (tex_min_filter t) (tex_mag_filter t)
        (tex_image t) (tex_mipmaps t)
  | GL_TEXTURE_WRAP_T =>
      mkTexture (tex_wrap_s t) param (tex_min_filter t) (tex_mag_filter t)
        (tex_image t) (tex_mipmaps t)
  | GL_TEXTURE_MIN_FILTER =>
      mkTexture (tex_wrap_s t) (tex_wrap_t t) param (tex_mag_filter t)
        (tex_image t) (tex_mipmaps t)
  | GL_TEXTURE_MAG_FILTER =>
      mkTexture (tex_wrap_s t) (tex_wrap_t t) (tex_min_filter t) param
        (tex_image t) (tex_mipmaps t)
  | _ => t
  end.

(** A texture command acts on the texture bound to [GL_TEXTURE_2D], which
    comes into being in its default state when it is first used; an image
    is [width * height] pixels of four bytes. *)
Definition tex_exec (bound : Z) (c : TexCommand) (objects : gmap Z TextureObject)
    : gmap Z TextureObject :=
  let t := default default_texture (objects !! bound) in
  match c with
  | GenTextures _ => objects
  | TexParameteri _ pname param => <[bound := set_parameter pname param t]> objects
  | TexImage2D _ level internalformat width height _ format type pixels =>
      if decide (level = 0) then
        <[bound := mkTexture (tex_wrap_s t) (tex_wrap_t t) (tex_min_filter t)
                     (tex_mag_filter t)
                     (Some (mkTexImage internalformat width height format type
                              (take (Z.to_nat (width * height * 4)) pixels)))
                     (tex_mipmaps t)]> objects
      else objects
  | GenerateMipmap _ =>
      <[bound := mkTexture (tex_wrap_s t) (tex_wrap_t t) (tex_min_filter t)
                   (tex_mag_filter t) (tex_image t)
                   (bool_decide (is_Some (tex_image t)))]> objects
  end.

Record Machine : Type := mkMachine {
  world : World;
  ext : Ext
}.

Definition machine_init : Machine := mkMachine world_init ext_init.

Inductive xoutcome (A : Type) : Type :=
| XReturns (a : A) (s : Machine)
| XExits (status : Z) (s : Machine)
| XUndefined (f : Fault) (s : Machine)
| XStarved (s : Machine).
Arguments XReturns {A} a s.
Arguments XExits {A} status s.
Arguments XUndefined {A} f s.
Arguments XStarved {A} s.

Definition ProgX (A : Type) : Type := Machine -> xoutcome A.

#[global] Instance ProgX_ret : MRet ProgX := fun A a s => XReturns a s.
#[global] Instance ProgX_bind : MBind ProgX := fun A B k p s =>
  match p s with
  | XReturns a s' => k a s'
  | XExits status s' => XExits status s'
  | XUndefined f s' => XUndefined f s'
  | XStarved s' => XStarved s'
  end.

(** A program of the mesh builder, import adapter or render loop, run on
    the [World] of the machine. *)
Definition lift {A : Type} (p : Prog A) : ProgX A := fun s =>
  match p (world s) with
  | Returns a w => XReturns a (mkMachine w (ext s))
  | Exits status w => XExits status (mkMachine w (ext s))
  | Undefined f w => XUndefined f (mkMachine w (ext s))
  | Starved w => XStarved (mkMachine w (ext s))
  end.

Definition xresult {A : Type} (o : xoutcome A) : option A :=
  match o with
  | XReturns a _ => Some a
  | _ => None
  end.

Definition machine_of {A : Type} (o : xoutcome A) : Machine :=
  match o with
  | XReturns _ s | XExits _ s | XUndefined _ s | XStarved s => s
  end.

Definition ext_call (c : ExtCall) : ProgX unit := fun s =>
  XReturns tt
    (mkMachine (world s)
       (mkExt (match c with Tex (GenTextures n) => n | _ => tex_last (ext s) end)
          (match c with
           | Tex t => tex_exec (gl_texture_2d (gl (world s))) t (tex_objects (ext s))
           | _ => tex_objects (ext s)
           end)
          (ext_log (ext s) ++ [c]))).

Definition glGenTextures : ProgX Z := fun s =>
  let n := tex_last (ext s) + 1 in
  (ext_call (Tex (GenTextures n));; mret n) s.

Definition glTexParameteri (target : GLenum) (pname param : TexEnum) : ProgX unit :=
  ext_call (Tex (TexParameteri target pname param)).
Definition glTexImage2D (target : GLenum) (level : Z) (internalformat : TexEnum)
    (width height border : Z) (format type : TexEnum) (pixels : list Z) : ProgX unit :=
  ext_call (Tex (TexImage2D target level internalformat width height border format type pixels)).
Definition glGenerateMipmap (target : GLenum) : ProgX unit :=
  ext_call (Tex (GenerateMipmap target)).

(** Modelled from the spec: [StbImage], whose source ([StbImage.h]) is not
    among the files; a decoded image exposes its width, its height and its
    RGBA8 pixel bytes, and is loaded from a path. *)
Record StbImage : Type := mkStbImage {
  getWidth : Z;
  getHeight : Z;
  getData : list Z
}.

(** Modelled from the spec: [ShaderProgram], whose source
    ([ShaderProgram.h]) is not among the files; loading a vertex and
    fragment shader pair either succeeds or throws a [runtime_error] with
    a message, and a loaded program can be activated. *)
Record ShaderProgram : Type := mkShaderProgram {
  loaded : option (string * string)
}.

(** What the files and the compiler give the program: the text printed
    for the working directory, the assets, the decoded images, the
    message of a failing shader build, the clock at the start of the loop
    and the frames. *)
Record Environment : Type := mkEnvironment {
  env_cwd : string;
  env_assets : Assets;
  env_images : string -> StbImage;
  env_shader_error : string -> string -> option string;
  env_start : Z;
  env_frames : list Frame
}.

Definition loadFromFile (env : Environment) (path : string) : ProgX StbImage :=
  ext_call (LoadFromFile path);;
  mret (env_images env path).

Definition ShaderProgram_load (env : Environment) (vertex fragment : string)
    : ProgX (string + ShaderProgram) :=
  ext_call (ShaderLoad vertex fragment);;
  mret (match env_shader_error env vertex fragment with
        | Some what => inl what
        | None => inr (mkShaderProgram (Some (vertex, fragment)))
        end).

Definition textureShader (env : Environment) : ProgX ShaderProgram :=
  r ← ShaderProgram_load env "shaders/texture_perspective.vert" "shaders/texturing.frag";
  match r with
  | inl what =>
      lift (call (Stdout ("ERROR: " ++ what ++ endl)));;
      lift (exit 1)
  | inr shader => mret shader
  end.

Definition generateTexture (texture : StbImage) : ProgX Z :=
  textureId ← glGenTextures;
  lift (glBindTexture GL_TEXTURE_2D textureId);;
  glTexParameteri GL_TEXTURE_2D GL_TEXTURE_WRAP_S GL_REPEAT;;
  glTexParameteri GL_TEXTURE_2D GL_TEXTURE_WRAP_T GL_REPEAT;;
  glTexParameteri GL_TEXTURE_2D GL_TEXTURE_MIN_FILTER GL_LINEAR_MIPMAP_LINEAR;;
  glTexParameteri GL_TEXTURE_2D GL_TEXTURE_MAG_FILTER GL_LINEAR;;
  glTexImage2D GL_TEXTURE_2D 0 GL_RGBA (getWidth texture) (getHeight texture) 0
    GL_RGBA GL_UNSIGNED_BYTE (getData texture);;
  glGenerateMipmap GL_TEXTURE_2D;;
  mret textureId.

Definition with_texture (n : Z) (m : Mesh) : Mesh := Mesh.mk (Mesh.vao m) (Mesh.faces m) n.

Definition triangle (env : Environment) : ProgX Mesh :=
  m ← lift (constructMesh triangleVertices triangleFaces);
  wall ← loadFromFile env "models/wall.jpg";
  texture ← generateTexture wall;
  let m := with_texture texture m in
  mret m.

Definition bunny (env : Environment) : ProgX Mesh :=
  obj ← lift (assimpLoad (env_assets env) "models/bunny_textured.obj" true);
  texture ← loadFromFile env "models/bunny_textured.jpg";
  texture ← generateTexture texture;
  let obj := with_texture texture obj in
  mret obj.

Definition main (env : Environment) : ProgX Z :=
  lift (call (Stdout (env_cwd env ++ endl)));;
  let settings := mkContextSettings 24 8 2 3 3 in
  ext_call (CreateWindow 1200 800 "Modern OpenGL" [Style_Resize; Style_Close] settings);;
  ext_call GladLoadGL;;
  obj ← bunny env;
  let objectPosition := glm.vec3.mk 0 0 (-3) in
  let objectOrientation := glm.vec3.mk 0 0 0 in
  let objectScale := glm.vec3.mk 3 3 3 in
  program ← textureShader env;
  ext_call Activate;;
  lift (main_loop obj objectPosition objectOrientation objectScale
          (env_start env) (env_frames env)).

(** The texture [generateTexture] makes of an image. *)
Definition texture_of (texture : StbImage) : TextureObject :=
  mkTexture GL_REPEAT GL_REPEAT GL_LINEAR_MIPMAP_LINEAR GL_LINEAR
    (Some (mkTexImage GL_RGBA (getWidth texture) (getHeight texture) GL_RGBA GL_UNSIGNED_BYTE
             (take (Z.to_nat (getWidth texture * getHeight texture * 4)) (getData texture))))
    true.

Definition generateTexture_calls (name : Z) (texture : StbImage) : list ExtCall :=
  Tex <$>
    [ GenTextures name;
      TexParameteri GL_TEXTURE_2D GL_TEXTURE_WRAP_S GL_REPEAT;
      TexParameteri GL_TEXTURE_2D GL_TEXTURE_WRAP_T GL_REPEAT;
      TexParameteri GL_TEXTURE_2D GL_TEXTURE_MIN_FILTER GL_LINEAR_MIPMAP_LINEAR;
      TexParameteri GL_TEXTURE_2D GL_TEXTURE_MAG_FILTER GL_LINEAR;
      TexImage2D GL_TEXTURE_2D 0 GL_RGBA (getWidth texture) (getHeight texture) 0
        GL_RGBA GL_UNSIGNED_BYTE (getData texture);
      GenerateMipmap GL_TEXTURE_2D ].

(** The calls a program of the machine added to the log of its world. *)
Definition xissued {A : Type} (p : ProgX A) (s : Machine) : list Call :=
  drop (length (log (world s))) (log (world (machine_of (p s)))).

Definition bunny_obj : string := "models/bunny_textured.obj".
Definition bunny_jpg : string := "models/bunny_textured.jpg".
Definition vertex_shader : string := "shaders/texture_perspective.vert".
Definition fragment_shader : string := "shaders/texturing.frag".

(** The machine when [main] has printed the working directory, opened
    its window and loaded OpenGL. *)
Definition window_calls : list ExtCall :=
  [CreateWindow 1200 800 "Modern OpenGL" [Style_Resize; Style_Close]
     (mkContextSettings 24 8 2 3 3);
   GladLoadGL].

Definition started (env : Environment) (s : Machine) : Machine :=
  mkMachine (record (Stdout (env_cwd env ++ endl)) (world s))
    (mkExt (tex_last (ext s)) (tex_objects (ext s)) (ext_log (ext s) ++ window_calls)).

(** Test environments: the textured triangle as the asset, a one-pixel
    image, two frames with a close event in the second. *)
Definition demo_image : StbImage := mkStbImage 1 1 [255; 0; 0; 255].

Definition demo_frames : list Frame :=
  [mkFrame [Resized] 16 (1200, 800); mkFrame [MouseMoved; Closed] 33 (1200, 800)].

Definition demo_env : Environment :=
  mkEnvironment "/home/demo" (assets_of (aiScene.mk [texturedTriangle]))
    (fun _ => demo_image) (fun _ _ => None) 0 demo_frames.

Definition broken_asset_env : Environment :=
  mkEnvironment "/home/demo" (fun _ => inl "no such file"%string)
    (fun _ => demo_image) (fun _ _ => None) 0 demo_frames.

Definition broken_shader_env : Environment :=
  mkEnvironment "/home/demo" (assets_of (aiScene.mk [texturedTriangle]))
    (fun _ => demo_image) (fun _ _ => Some "compile error"%string) 0 demo_frames.

(** More test assets: a quadrilateral, a mesh with a line among its faces,
    and vertices without faces. *)
Definition quadMesh : aiMesh :=
  aiMesh.mk (aiMesh.mVertices cube) [] [aiFace.mk [0; 1; 2; 3]].


Definition pointCloud : aiMesh := aiMesh.mk (aiMesh.mVertices cube) [] [].

Definition triangleMesh : Mesh := Mesh.mk 1 3 0.

(** The world after [constructMesh] built the triangle in a fresh context. *)
Definition triangle_world : World :=
  world_of (constructMesh triangleVertices triangleFaces world_init).

(** * Properties *)

(** ** Running programs *)

Create HintDb wi.

Lemma bind_returns {A B : Type} (p : Prog A) (k : A -> Prog B) (w w' : World) (a : A) :
  p w = Returns a w' -> (p ≫= k) w = k a w'.
Proof. intros H. unfold mbind, Prog_bind. rewrite H. reflexivity. Qed.

Ltac run_prog :=
  cbv [mbind Prog_bind mret Prog_ret glGenVertexArrays glGenBuffers glBindVertexArray
       glBindBuffer glBufferData glVertexAttribPointer glEnableVertexAttribArray
       glBindTexture glDrawElements glClear
       call record exit address_of_index at_index gl log lookup list_lookup drop].

(** ** The transform pipeline *)

Section Transform.
Local Open Scope R_scope.

Lemma inversesqrt_1 : glm.inversesqrt 1 = 1.
Proof. unfold glm.inversesqrt. rewrite sqrt_1. lra. Qed.

Lemma normalize_axis (a : Axis) : glm.normalize (axis_vector a) = axis_vector a.
Proof.
  unfold glm.normalize, glm.dot.
  destruct a; cbn [axis_vector glm.vec3.x glm.vec3.y glm.vec3.z].
  all: replace (1 * 1 + 0 * 0 + 0 * 0) with 1 by ring;
       replace (0 * 0 + 1 * 1 + 0 * 0) with 1 by ring;
       replace (0 * 0 + 0 * 0 + 1 * 1) with 1 by ring;
       rewrite inversesqrt_1; f_equal; ring.
Qed.

Lemma vec4_eq (a b : glm.vec4) :
  glm.vec4.x a = glm.vec4.x b -> glm.vec4.y a = glm.vec4.y b ->
  glm.vec4.z a = glm.vec4.z b -> glm.vec4.w a = glm.vec4.w b -> a = b.
Proof. destruct a, b; cbn; congruence. Qed.

Lemma mat4_eq (a b : glm.mat4) :
  glm.mat4.c0 a = glm.mat4.c0 b -> glm.mat4.c1 a = glm.mat4.c1 b ->
  glm.mat4.c2 a = glm.mat4.c2 b -> glm.mat4.c3 a = glm.mat4.c3 b -> a = b.
Proof. destruct a, b; cbn; congruence. Qed.

(** Entries are reduced one at a time, so that nested products are never
    spelled out whole. *)
Ltac glm_unfold :=
  cbn [glm.mul glm.apply glm.translate glm.scale glm.identity
       Spec.translation Spec.scaling Spec.rotateX Spec.rotateY Spec.rotateZ
       glm.vec4.smul glm.vec4.add
       glm.mat4.c0 glm.mat4.c1 glm.mat4.c2 glm.mat4.c3
       glm.vec4.x glm.vec4.y glm.vec4.z glm.vec4.w
       glm.vec3.x glm.vec3.y glm.vec3.z].

Ltac glm_ring := apply mat4_eq; apply vec4_eq; glm_unfold; ring.

Lemma translate_is_product (m : glm.mat4) (d : glm.vec3) :
  glm.translate m d = m × Spec.translation d.
Proof. destruct m as [[] [] [] []], d. glm_ring. Qed.

Lemma scale_is_product (m : glm.mat4) (k : glm.vec3) :
  glm.scale m k = m × Spec.scaling k.
Proof. destruct m as [[] [] [] []], k. glm_ring. Qed.

Lemma rotate_is_product (m : glm.mat4) (angle : R) (a : Axis) :
  glm.rotate m angle (axis_vector a) = m × spec_rotation a angle.
Proof.
  unfold glm.rotate. rewrite normalize_axis.
  destruct m as [[] [] [] []], a; cbn [axis_vector spec_rotation]; glm_ring.
Qed.

Lemma mul_assoc (a b c : glm.mat4) : a × (b × c) = a × b × c.
Proof. destruct a as [[] [] [] []], b as [[] [] [] []], c as [[] [] [] []]. glm_ring. Qed.

Lemma mul_identity_l (a : glm.mat4) : glm.identity × a = a.
Proof. destruct a as [[] [] [] []]. glm_ring. Qed.

Lemma buildModelMatrix_in_order (position orientation scale : glm.vec3) :
  buildModelMatrix position orientation scale
  = modelMatrixInOrder [AxisZ; AxisX; AxisY] position orientation scale.
Proof. reflexivity. Qed.

Lemma modelMatrixInOrder_product (order : list Axis) (position orientation scale : glm.vec3) :
  modelMatrixInOrder order position orientation scale
  = fold_left (fun m a => m × spec_rotation a (axis_angle orientation a)) order
      (glm.identity × Spec.translation position × Spec.scaling scale).
Proof.
  unfold modelMatrixInOrder.
  rewrite scale_is_product, translate_is_product.
  generalize (glm.identity × Spec.translation position × Spec.scaling scale).
  induction order as [|a order IH]; intros m; cbn [fold_left]; [reflexivity|].
  rewrite rotate_is_product. apply IH.
Qed.

Lemma spec_rotation_zero (a : Axis) : spec_rotation a 0 = glm.identity.
Proof.
  destruct a; cbn [spec_rotation]; unfold Spec.rotateX, Spec.rotateY, Spec.rotateZ;
    rewrite cos_0, sin_0, Ropp_0; reflexivity.
Qed.

(** C9. With position (0,0,0), orientation (0,0,0) and scale (1,1,1),
    [buildModelMatrix] returns the identity matrix. *)
Theorem buildModelMatrix_identity :
  buildModelMatrix (glm.vec3.mk 0 0 0) (glm.vec3.mk 0 0 0) (glm.vec3.mk 1 1 1)
  = glm.identity.
Proof.
  rewrite buildModelMatrix_in_order, modelMatrixInOrder_product.
  cbn [fold_left axis_angle glm.vec3.x glm.vec3.y glm.vec3.z].
  rewrite !spec_rotation_zero.
  change (Spec.translation (glm.vec3.mk 0 0 0)) with glm.identity.
  change (Spec.scaling (glm.vec3.mk 1 1 1)) with glm.identity.
  rewrite !mul_identity_l. reflexivity.
Qed.
End Transform.

(** ** The mesh builder *)

Section MeshBuilder.

(** With both lists non-empty [constructMesh] runs to its end: the mesh it
    returns and the commands it has issued. *)
Lemma constructMesh_run (vertices : list Vertex3D) (faces : list Z) (w : World) :
  vertices <> [] -> faces <> [] ->
  constructMesh vertices faces w
  = Returns (Mesh.mk (gl_last_vao (gl w) + 1) (to_uint32 (size_of faces)) 0)
      (issue (constructMesh_commands (gl_last_vao (gl w) + 1) (gl_last_buffer (gl w) + 1)
                vertices faces) w).
Proof.
  intros Hv Hf.
  destruct vertices as [|v vs]; [congruence|]. destruct faces as [|i fs]; [congruence|].
  destruct w as [g l]. unfold issue, constructMesh. run_prog.
  apply (f_equal2 Returns); [reflexivity|].
  apply (f_equal2 mkWorld); [reflexivity|].
  cbn [fmap list_fmap constructMesh_commands]. rewrite <- !app_assoc. reflexivity.
Qed.

Lemma constructMesh_no_vertices (faces : list Z) (w : World) :
  constructMesh [] faces w
  = Undefined (IndexOutOfRange 0 0)
      (issue [ GenVertexArrays (gl_last_vao (gl w) + 1); BindVertexArray (gl_last_vao (gl w) + 1);
               GenBuffers (gl_last_buffer (gl w) + 1);
               BindBuffer GL_ARRAY_BUFFER (gl_last_buffer (gl w) + 1) ] w).
Proof.
  destruct w as [g l]. unfold issue, constructMesh. run_prog.
  apply (f_equal2 Undefined); [reflexivity|].
  apply (f_equal2 mkWorld); [reflexivity|].
  cbn [fmap list_fmap]. rewrite <- !app_assoc. reflexivity.
Qed.

Lemma constructMesh_no_faces (vertices : list Vertex3D) (w : World) :
  vertices <> [] ->
  constructMesh vertices [] w
  = Undefined (IndexOutOfRange 0 0)
      (issue (take 9 (constructMesh_commands (gl_last_vao (gl w) + 1)
                        (gl_last_buffer (gl w) + 1) vertices [])) w).
Proof.
  intros Hv. destruct vertices as [|v vs]; [congruence|].
  destruct w as [g l]. unfold issue, constructMesh. run_prog.
  apply (f_equal2 Undefined); [reflexivity|].
  apply (f_equal2 mkWorld); [reflexivity|].
  cbn [fmap list_fmap constructMesh_commands take]. rewrite <- !app_assoc. reflexivity.
Qed.

Lemma drawMesh_run (m : Mesh) (w : World) :
  drawMesh m w = Returns tt (issue (drawMesh_commands m) w).
Proof.
  destruct w as [g l]. unfold issue, drawMesh. run_prog.
  apply (f_equal2 Returns); [reflexivity|].
  apply (f_equal2 mkWorld); [reflexivity|].
  cbn [fmap list_fmap drawMesh_commands]. rewrite <- !app_assoc. reflexivity.
Qed.

Lemma issued_issue {A : Type} (p : Prog A) (cmds : list GLCommand) (w : World) :
  world_of (p w) = issue cmds w -> issued p w = GL <$> cmds.
Proof.
  intros H. unfold issued. rewrite H. unfold issue. cbn [log].
  rewrite drop_app_length. reflexivity.
Qed.

Lemma valid_input_nonempty (vertices : list Vertex3D) (faces : list Z) :
  valid_input vertices faces -> faces <> [] -> vertices <> [].
Proof.
  intros [_ Hall] Hf ->. destruct faces as [|i fs]; [congruence|].
  apply Forall_cons in Hall as [Hi _]. unfold size_of in Hi. cbn in Hi. lia.
Qed.

(** C1, as the code has it. For every vertex list and non-empty index list
    that satisfy the preconditions, [constructMesh] returns a mesh whose
    face count is the length of the index list (three times the number of
    triangles), reduced modulo 2^32 by the 32-bit field; the literal
    triangle with index list [2,1,0] is built and reports 3. *)
Theorem constructMesh_face_count :
  (forall (vertices : list Vertex3D) (faces : list Z) (w : World),
      valid_input vertices faces -> faces <> [] ->
      Mesh.faces <$> result (constructMesh vertices faces w)
      = Some (size_of faces mod 2 ^ 32)
      /\ size_of faces = 3 * (size_of faces / 3))
  /\ result (constructMesh triangleVertices triangleFaces world_init)
     = Some (Mesh.mk 1 3 0).
Proof.
  split.
  - intros vertices faces w Hvalid Hf.
    rewrite constructMesh_run by eauto using valid_input_nonempty.
    split; [reflexivity|].
    destruct Hvalid as [Hmod _]. apply Z.div_exact in Hmod; [exact Hmod | lia].
  - reflexivity.
Qed.

Lemma constructMesh_face_count_witness :
  Mesh.faces <$> result (constructMesh triangleVertices triangleFaces world_init)
  = Some (size_of triangleFaces mod 2 ^ 32)
  /\ size_of triangleFaces = 3 * (size_of triangleFaces / 3).
Proof.
  apply (proj1 constructMesh_face_count).
  - split; [reflexivity|]. repeat constructor; vm_compute; congruence.
  - discriminate.
Defined.

(** C1 as stated fails on the literal triangle: its index list [2,1,0]
    satisfies the preconditions and has length 3, and the mesh reports a
    face count of 3, not 3 / 3 = 1. *)
Lemma constructMesh_triangle_reports_three :
  valid_input triangleVertices triangleFaces
  /\ Mesh.faces <$> result (constructMesh triangleVertices triangleFaces world_init) = Some 3
  /\ Mesh.faces <$> result (constructMesh triangleVertices triangleFaces world_init)
     <> Some (size_of triangleFaces / 3).
Proof.
  split; [|split].
  - split; [reflexivity|]. repeat constructor; vm_compute; congruence.
  - reflexivity.
  - vm_compute. discriminate.
Qed.

(** C3. [constructMesh] configures one vertex attribute, not two: on every
    run to the end the only layout command is that of attribute 0 (three
    floats at offset 0, stride 20), and for the literal triangle the
    vertex array it created holds attribute 0 alone, attribute 1 (u, v)
    being left unset. *)
Theorem constructMesh_configures_position_only :
  (forall (vertices : list Vertex3D) (faces : list Z) (w : World),
      vertices <> [] -> faces <> [] ->
      attribute_commands (issued (constructMesh vertices faces) w)
      = [VertexAttribPointer 0 3 GL_FLOAT false sizeof_Vertex3D 0])
  /\ (va_attribs <$>
        gl_vaos (gl (world_of (constructMesh triangleVertices triangleFaces world_init))) !! 1)
     = Some {[ 0 := mkAttrib 3 GL_FLOAT false sizeof_Vertex3D 0 1 ]}
  /\ (gl_vaos (gl (world_of (constructMesh triangleVertices triangleFaces world_init))) !! 1
        ≫= fun va => va_attribs va !! 1) = None.
Proof.
  split; [|split].
  - intros vertices faces w Hv Hf.
    erewrite issued_issue by (rewrite constructMesh_run by assumption; reflexivity).
    reflexivity.
  - vm_compute. reflexivity.
  - vm_compute. reflexivity.
Qed.

Lemma constructMesh_configures_position_only_witness :
  attribute_commands (issued (constructMesh triangleVertices triangleFaces) world_init)
  = [VertexAttribPointer 0 3 GL_FLOAT false sizeof_Vertex3D 0].
Proof.
  apply (proj1 constructMesh_configures_position_only); discriminate.
Defined.

(** C10. [constructMesh] reads element 0 of both lists: with both lists
    non-empty every access is in bounds and it returns; with an empty
    vertex list, or an empty index list, the access to element 0 is out of
    bounds; and the stated preconditions do not exclude it, since they
    hold of an empty index list with any vertex list. *)
Theorem constructMesh_needs_nonempty_lists :
  (forall (vertices : list Vertex3D) (faces : list Z) (w : World),
      vertices <> [] -> faces <> [] ->
      exists m w', constructMesh vertices faces w = Returns m w')
  /\ (forall (faces : list Z) (w : World),
        exists w', constructMesh [] faces w = Undefined (IndexOutOfRange 0 0) w')
  /\ (forall (vertices : list Vertex3D) (w : World),
        vertices <> [] ->
        exists w', constructMesh vertices [] w = Undefined (IndexOutOfRange 0 0) w')
  /\ (forall vertices : list Vertex3D, valid_input vertices []).
Proof.
  repeat split.
  - intros vertices faces w Hv Hf. rewrite constructMesh_run by assumption. eauto.
  - intros faces w. rewrite constructMesh_no_vertices. eauto.
  - intros vertices w Hv. rewrite constructMesh_no_faces by assumption. eauto.
  - constructor.
Qed.

Lemma constructMesh_needs_nonempty_lists_witness :
  exists m w', constructMesh triangleVertices triangleFaces world_init = Returns m w'.
Proof.
  apply (proj1 constructMesh_needs_nonempty_lists); discriminate.
Defined.

End MeshBuilder.


(** ** The asset import adapter *)

Section ImportAdapter.

Lemma at_index_middle {A : Type} (pre suf : list A) (a : A) (w : World) :
  at_index (pre ++ a :: suf) (length pre) w = Returns a w.
Proof. unfold at_index. rewrite list_lookup_middle by reflexivity. reflexivity. Qed.

Lemma for_loop_vertices (l : list aiVector3D) :
  forall (suf pre : list aiVector3D) (acc : list Vertex3D) (w : World),
    l = pre ++ suf ->
    for_loop (length suf) (length pre)
      (fun i vertices => p ← at_index l i; mret (vertices ++ [imported_vertex p])) acc w
    = Returns (acc ++ (imported_vertex <$> suf)) w.
Proof.
  induction suf as [|p suf IH]; intros pre acc w Hl.
  - cbn. rewrite app_nil_r. reflexivity.
  - cbn [for_loop length].
    erewrite bind_returns
      by (erewrite bind_returns by (rewrite Hl; apply at_index_middle); reflexivity).
    replace (S (length pre)) with (length (pre ++ [p])) by (rewrite length_app; cbn; lia).
    rewrite IH by (rewrite Hl, <- app_assoc; reflexivity).
    rewrite <- app_assoc. reflexivity.
Qed.

Lemma for_loop_faces (l : list aiFace) :
  forall (suf pre : list aiFace) (acc : list Z) (w : World),
    l = pre ++ suf ->
    Forall (fun f => aiFace.mNumIndices f = 3%nat) suf ->
    for_loop (length suf) (length pre)
      (fun i faces =>
         f ← at_index l i;
         i0 ← at_index (aiFace.mIndices f) 0;
         let faces := faces ++ [i0] in
         i1 ← at_index (aiFace.mIndices f) 1;
         let faces := faces ++ [i1] in
         i2 ← at_index (aiFace.mIndices f) 2;
         let faces := faces ++ [i2] in
         mret faces) acc w
    = Returns (acc ++ concat (aiFace.mIndices <$> suf)) w.
Proof.
  induction suf as [|f suf IH]; intros pre acc w Hl Htri.
  - cbn. rewrite app_nil_r. reflexivity.
  - apply Forall_cons in Htri as [Hf Htri].
    destruct f as [[|i0 [|i1 [|i2 [|? ?]]]]]; try discriminate Hf.
    cbn [for_loop length].
    erewrite bind_returns
      by (erewrite bind_returns by (rewrite Hl; apply at_index_middle); reflexivity).
    replace (S (length pre)) with (length (pre ++ [aiFace.mk [i0; i1; i2]]))
      by (rewrite length_app; cbn; lia).
    rewrite IH by (first [rewrite Hl, <- app_assoc; reflexivity | assumption]).
    cbn [fmap list_fmap concat aiFace.mIndices app].
    rewrite <- !app_assoc. reflexivity.
Qed.

(** A mesh of triangles is imported whole: one vertex record per source
    vertex, the three indices of each face in face order. *)
Lemma fromAssimpMesh_run (mesh : aiMesh) (vertices : list Vertex3D) (faces : list Z) (w : World) :
  triangular mesh ->
  fromAssimpMesh mesh vertices faces w
  = Returns (vertices ++ (imported_vertex <$> aiMesh.mVertices mesh),
             faces ++ concat (aiFace.mIndices <$> aiMesh.mFaces mesh)) w.
Proof.
  intros Htri. unfold fromAssimpMesh.
  erewrite bind_returns
    by (apply (for_loop_vertices _ (aiMesh.mVertices mesh) []); reflexivity).
  erewrite bind_returns
    by (apply (for_loop_faces _ (aiMesh.mFaces mesh) []); [reflexivity | exact Htri]).
  reflexivity.
Qed.


Lemma fromAssimpMesh_vertices (mesh : aiMesh) (vertices vs : list Vertex3D) (faces fs : list Z)
    (w w' : World) :
  fromAssimpMesh mesh vertices faces w = Returns (vs, fs) w' ->
  vs = vertices ++ (imported_vertex <$> aiMesh.mVertices mesh).
Proof.
  unfold fromAssimpMesh.
  erewrite bind_returns
    by (apply (for_loop_vertices _ (aiMesh.mVertices mesh) []); reflexivity).
  unfold mbind at 1, Prog_bind at 1.
  destruct (for_loop _ _ _ _ w); intros H; inversion H. reflexivity.
Qed.

Lemma world_independent_ret {A : Type} (a : A) : world_independent (mret a).
Proof. exists (inr a). reflexivity. Qed.

Lemma world_independent_at_index {A : Type} (l : list A) (i : nat) :
  world_independent (at_index l i).
Proof.
  unfold at_index. destruct (l !! i) as [a|].
  - exists (inr a). reflexivity.
  - exists (inl (IndexOutOfRange i (length l))). reflexivity.
Qed.

Lemma world_independent_bind {A B : Type} (p : Prog A) (k : A -> Prog B) :
  world_independent p -> (forall a, world_independent (k a)) ->
  world_independent (p ≫= k).
Proof.
  intros [[f|a] Hp] Hk.
  - exists (inl f). intros w. unfold mbind, Prog_bind. rewrite Hp. reflexivity.
  - destruct (Hk a) as [r Hr]. exists r. intros w.
    unfold mbind, Prog_bind. rewrite Hp. apply Hr.
Qed.

Lemma world_independent_for_loop {St : Type} (body : nat -> St -> Prog St) (n : nat) :
  (forall i s, world_independent (body i s)) ->
  forall i s, world_independent (for_loop n i body s).
Proof.
  intros Hbody. induction n as [|n IH]; intros i s; cbn [for_loop].
  - apply world_independent_ret.
  - apply world_independent_bind; [apply Hbody | intros s'; apply IH].
Qed.

#[local] Hint Resolve world_independent_ret world_independent_at_index : wi.

Lemma fromAssimpMesh_world_independent (mesh : aiMesh) (vertices : list Vertex3D) (faces : list Z) :
  world_independent (fromAssimpMesh mesh vertices faces).
Proof.
  unfold fromAssimpMesh.
  apply world_independent_bind; [|intros vs; apply world_independent_bind; [|intros fs]].
  - apply world_independent_for_loop. intros i s.
    apply world_independent_bind; intros; auto with wi.
  - apply world_independent_for_loop. intros i s.
    repeat (apply world_independent_bind; [auto with wi | intros ?]). auto with wi.
  - auto with wi.
Qed.

(** [assimpLoad] after the call to the importer. *)
Lemma assimpLoad_unfold (assets : Assets) (path : string) (flipUvs : bool) (w : World) :
  assimpLoad assets path flipUvs w
  = match assets path with
    | inl err =>
        Exits 1 (mkWorld (gl w)
                   ((log w ++ [ReadFile path (import_flags flipUvs)])
                      ++ [Stdout ("ASSIMP ERROR" ++ err ++ endl)]))
    | inr scene =>
        load_first_mesh (aiScene.mMeshes (if flipUvs then FlipUVs_scene scene else scene))
          (mkWorld (gl w) (log w ++ [ReadFile path (import_flags flipUvs)]))
    end.
Proof.
  unfold assimpLoad, Importer_ReadFile.
  destruct flipUvs, (assets path) as [err|scene]; reflexivity.
Qed.

Lemma constructMesh_gl (vertices : list Vertex3D) (faces : list Z) (w1 w2 : World) :
  gl w1 = gl w2 ->
  result (constructMesh vertices faces w1) = result (constructMesh vertices faces w2)
  /\ gl (world_of (constructMesh vertices faces w1))
     = gl (world_of (constructMesh vertices faces w2)).
Proof.
  intros Hgl.
  destruct vertices as [|v vs].
  - rewrite !constructMesh_no_vertices. cbn [result world_of issue gl]. rewrite Hgl. done.
  - destruct faces as [|i fs].
    + rewrite !constructMesh_no_faces by discriminate.
      cbn [result world_of issue gl]. rewrite Hgl. done.
    + rewrite !constructMesh_run by discriminate.
      cbn [result world_of issue gl]. rewrite Hgl. done.
Qed.

(** C4. [fromAssimpMesh] emits one vertex record per source vertex, with
    the position of that vertex, but with (u, v) = (0, 0) whatever the
    first UV channel holds: whenever it returns, the vertices it added are
    the positions alone, and for the textured triangle, whose first
    channel gives vertex 0 the coordinates (0, 1), vertex 0 comes out with
    (0, 0). *)
Theorem fromAssimpMesh_leaves_uv_zero :
  (forall (mesh : aiMesh) (vertices vs : list Vertex3D) (faces fs : list Z) (w w' : World),
      fromAssimpMesh mesh vertices faces w = Returns (vs, fs) w' ->
      vs = vertices ++ (imported_vertex <$> aiMesh.mVertices mesh)
      /\ Forall (fun p => uv_of p = (F32.zero, F32.zero)) (drop (length vertices) vs))
  /\ (fun r : list Vertex3D * list Z => uv_of <$> r.1)
       <$> result (fromAssimpMesh texturedTriangle [] [] world_init)
     = Some [(F32.zero, F32.zero); (F32.zero, F32.zero); (F32.zero, F32.zero)]
  /\ first_uv texturedTriangle <$> [0; 1; 2]%nat
     = [Some (F32.zero, F32.one); Some (F32.zero, F32.zero); Some (F32.one, F32.zero)]
  /\ F32.one <> F32.zero.
Proof.
  split; [|repeat split].
  - intros mesh vertices vs faces fs w w' H.
    apply fromAssimpMesh_vertices in H as ->. split; [reflexivity|].
    rewrite drop_app_length. apply Forall_fmap, Forall_true. intros p. reflexivity.
  - discriminate.
Qed.

Lemma fromAssimpMesh_leaves_uv_zero_witness :
  imported_vertex <$> aiMesh.mVertices texturedTriangle
  = [] ++ (imported_vertex <$> aiMesh.mVertices texturedTriangle)
  /\ Forall (fun p => uv_of p = (F32.zero, F32.zero))
       (drop (length (@nil Vertex3D)) (imported_vertex <$> aiMesh.mVertices texturedTriangle)).
Proof.
  apply (proj1 fromAssimpMesh_leaves_uv_zero texturedTriangle [] _ [] [2; 1; 0]
           world_init world_init).
  vm_compute. reflexivity.
Defined.

(** C7. For every source mesh of F triangles whose indices are those of
    its vertices, [fromAssimpMesh] emits exactly 3 * F indices, the three
    of each face in face order, each less than the number of vertices it
    emitted; the cube of 12 triangles yields 36 indices. *)
Theorem fromAssimpMesh_indices :
  (forall (mesh : aiMesh) (w : World),
      triangular mesh -> indices_in_range mesh ->
      exists vs fs,
        fromAssimpMesh mesh [] [] w = Returns (vs, fs) w
        /\ length vs = aiMesh.mNumVertices mesh
        /\ length fs = (3 * aiMesh.mNumFaces mesh)%nat
        /\ fs = concat (aiFace.mIndices <$> aiMesh.mFaces mesh)
        /\ Forall (fun i => 0 <= i < size_of vs) fs)
  /\ (aiMesh.mNumFaces cube = 12%nat
      /\ (fun r : list Vertex3D * list Z => length r.2)
           <$> result (fromAssimpMesh cube [] [] world_init) = Some 36%nat).
Proof.
  split; [|split; reflexivity].
  intros mesh w Htri Hrange. eexists _, _. split; [apply fromAssimpMesh_run, Htri|].
  cbn [app]. unfold size_of. rewrite length_fmap.
  repeat split.
  - unfold triangular in Htri. unfold aiMesh.mNumFaces.
    induction Htri as [|f fs Hf _ IH]; [reflexivity|].
    cbn [fmap list_fmap concat length]. rewrite length_app, IH.
    unfold aiFace.mNumIndices in Hf. lia.
  - unfold indices_in_range in Hrange. unfold aiMesh.mNumVertices in Hrange.
    induction Hrange as [|f fs Hf _ IH]; [constructor|].
    cbn [fmap list_fmap concat]. apply Forall_app. split; assumption.
Qed.

Lemma fromAssimpMesh_indices_witness :
  exists vs fs,
    fromAssimpMesh cube [] [] world_init = Returns (vs, fs) world_init
    /\ length vs = aiMesh.mNumVertices cube
    /\ length fs = (3 * aiMesh.mNumFaces cube)%nat
    /\ fs = concat (aiFace.mIndices <$> aiMesh.mFaces cube)
    /\ Forall (fun i => 0 <= i < size_of vs) fs.
Proof.
  apply (proj1 fromAssimpMesh_indices).
  - unfold triangular. cbn. repeat constructor.
  - unfold indices_in_range. cbn. repeat constructor; vm_compute; congruence.
Defined.


Lemma fromAssimpMesh_FlipUVs (mesh : aiMesh) (vertices : list Vertex3D) (faces : list Z) :
  fromAssimpMesh (FlipUVs_mesh mesh) vertices faces = fromAssimpMesh mesh vertices faces.
Proof. reflexivity. Qed.

Lemma load_first_mesh_FlipUVs (scene : aiScene) (w1 w2 : World) :
  gl w1 = gl w2 ->
  result (load_first_mesh (aiScene.mMeshes (FlipUVs_scene scene)) w1)
  = result (load_first_mesh (aiScene.mMeshes scene) w2)
  /\ gl (world_of (load_first_mesh (aiScene.mMeshes (FlipUVs_scene scene)) w1))
     = gl (world_of (load_first_mesh (aiScene.mMeshes scene) w2)).
Proof.
  intros Hgl. unfold load_first_mesh. destruct scene as [[|mesh rest]].
  - cbn. auto.
  - cbn [FlipUVs_scene aiScene.mMeshes fmap list_fmap].
    unfold mbind, Prog_bind, at_index. cbn [lookup list_lookup].
    change (fromAssimpMesh (FlipUVs_mesh mesh)) with (fromAssimpMesh mesh).
    destruct (fromAssimpMesh_world_independent mesh [] []) as [[f|[vs fs]] Hr];
      rewrite (Hr w1), (Hr w2).
    + cbn. auto.
    + apply constructMesh_gl, Hgl.
Qed.

(** C8. Turning [flipUvs] on changes nothing in what [assimpLoad] imports:
    the import of a mesh is the same with its texture coordinates flipped,
    and [assimpLoad] returns the same mesh and leaves the same OpenGL
    state, vertex buffer included, for both values of [flipUvs].  For the
    textured triangle the vertex buffer holds v = 0 for every vertex with
    and without the flag, where the source has v = 1, 0, 0 and its flip
    1 - v = 0, 1, 1. *)
Theorem assimpLoad_flipUvs_changes_nothing :
  (forall (mesh : aiMesh) (vertices : list Vertex3D) (faces : list Z) (w : World),
      fromAssimpMesh (FlipUVs_mesh mesh) vertices faces w
      = fromAssimpMesh mesh vertices faces w)
  /\ (forall (assets : Assets) (path : string) (w : World),
        result (assimpLoad assets path true w) = result (assimpLoad assets path false w)
        /\ gl (world_of (assimpLoad assets path true w))
           = gl (world_of (assimpLoad assets path false w)))
  /\ (forall flipUvs : bool,
        buf_data <$>
          gl_buffers (gl (world_of (assimpLoad (assets_of (aiScene.mk [texturedTriangle]))
                                      "models/bunny_textured.obj" flipUvs world_init))) !! 1
        = Some (VertexData (imported_vertex <$> aiMesh.mVertices texturedTriangle)))
  /\ Vertex3D.v <$> (imported_vertex <$> aiMesh.mVertices texturedTriangle)
     = [F32.zero; F32.zero; F32.zero]
  /\ (fun i => snd <$> first_uv texturedTriangle i) <$> [0; 1; 2]%nat
     = [Some F32.one; Some F32.zero; Some F32.zero]
  /\ (fun i => snd <$> first_uv (FlipUVs_mesh texturedTriangle) i) <$> [0; 1; 2]%nat
     = [Some F32.zero; Some F32.one; Some F32.one].
Proof.
  split; [|split; [|split; [|repeat split]]].
  - intros. reflexivity.
  - intros assets path w. rewrite !assimpLoad_unfold.
    destruct (assets path) as [err|scene].
    + split; reflexivity.
    + apply load_first_mesh_FlipUVs. reflexivity.
  - intros []; vm_compute; reflexivity.
Qed.

(** C5. [assimpLoad] exits with status 1, after a diagnostic on standard
    output, exactly when the importer hands back no scene.  A scene with
    at least one mesh is imported from its first mesh.  A scene without
    meshes is not diagnosed: the read of [mMeshes[0]] is out of bounds,
    with nothing printed and no exit. *)
Theorem assimpLoad_outcomes :
  (forall (assets : Assets) (path : string) (flipUvs : bool) (w : World) (err : string),
      assets path = inl err ->
      assimpLoad assets path flipUvs w
      = Exits 1 (mkWorld (gl w)
                   (log w ++ [ReadFile path (import_flags flipUvs);
                              Stdout ("ASSIMP ERROR" ++ err ++ endl)])))
  /\ (forall (assets : Assets) (path : string) (flipUvs : bool) (w : World) (scene : aiScene),
        assets path = inr scene -> aiScene.mMeshes scene = [] ->
        assimpLoad assets path flipUvs w
        = Undefined (IndexOutOfRange 0 0)
            (mkWorld (gl w) (log w ++ [ReadFile path (import_flags flipUvs)])))
  /\ (forall (assets : Assets) (path : string) (flipUvs : bool) (w : World)
             (mesh : aiMesh) (rest : list aiMesh),
        assets path = inr (aiScene.mk (mesh :: rest)) ->
        assimpLoad assets path flipUvs w
        = ('(vertices, faces) ← fromAssimpMesh mesh [] [];
           constructMesh vertices faces)
            (mkWorld (gl w) (log w ++ [ReadFile path (import_flags flipUvs)]))).
Proof.
  repeat split.
  - intros assets path flipUvs w err H. rewrite assimpLoad_unfold, H.
    rewrite <- app_assoc. reflexivity.
  - intros assets path flipUvs w [meshes] H Hm. cbn in Hm. subst meshes.
    rewrite assimpLoad_unfold, H. destruct flipUvs; reflexivity.
  - intros assets path flipUvs w mesh rest H.
    rewrite assimpLoad_unfold, H. destruct flipUvs; reflexivity.
Qed.

Lemma assimpLoad_outcomes_witness :
  assimpLoad (assets_of (aiScene.mk [])) "models/bunny_textured.obj" true world_init
  = Undefined (IndexOutOfRange 0 0)
      (mkWorld (gl world_init)
         (log world_init ++ [ReadFile "models/bunny_textured.obj" (import_flags true)])).
Proof.
  apply (proj1 (proj2 assimpLoad_outcomes) _ _ _ _ (aiScene.mk [])); reflexivity.
Defined.

End ImportAdapter.


(** ** The render loop *)

Section RenderLoopLaws.
Variables (obj : Mesh) (objectPosition objectOrientation objectScale : glm.vec3).

Lemma perform_app (a b : list Call) (w : World) :
  perform (a ++ b) w = perform b (perform a w).
Proof. apply fold_left_app. Qed.

Lemma log_perform (calls : list Call) (w : World) :
  log (perform calls w) = log w ++ calls.
Proof.
  revert w. induction calls as [|c calls IH]; intros w; cbn.
  - rewrite app_nil_r. reflexivity.
  - change (log (perform calls (record c w)) = log w ++ c :: calls).
    rewrite IH. cbn. rewrite <- app_assoc. reflexivity.
Qed.

Lemma still_running_cons (ev : EventType) (events : list EventType) (running : bool) :
  still_running events (if decide (ev = Closed) then false else running)
  = still_running (ev :: events) running.
Proof.
  unfold still_running.
  destruct (decide (ev = Closed)) as [->|Hne].
  - rewrite (bool_decide_eq_true_2 (Closed ∈ Closed :: events)) by apply list_elem_of_here.
    destruct (bool_decide _); reflexivity.
  - rewrite (bool_decide_ext (Closed ∈ ev :: events) (Closed ∈ events)); [reflexivity|].
    rewrite elem_of_cons. split; [intros [Heq|H]; [congruence | exact H] | auto].
Qed.

Lemma drainEvents_run (events : list EventType) :
  forall (running : bool) (w : World),
    drainEvents events running w
    = Returns (still_running events running) (perform (drain_log events) w).
Proof.
  induction events as [|ev events IH]; intros running w.
  - reflexivity.
  - cbn [drainEvents].
    erewrite bind_returns by reflexivity.
    rewrite IH, still_running_cons. reflexivity.
Qed.

Lemma iteration_run (f : Frame) (running : bool) (last : Z) (w : World) :
  iteration obj objectPosition objectOrientation objectScale f running last w
  = Returns (still_running (frame_events f) running, frame_now f)
      (perform (iteration_log obj objectPosition objectOrientation objectScale f last) w).
Proof.
  unfold iteration, iteration_log.
  erewrite bind_returns by apply drainEvents_run.
  rewrite perform_app. reflexivity.
Qed.

Lemma renderLoop_stopped (frames : list Frame) (last : Z) (w : World) :
  renderLoop obj objectPosition objectOrientation objectScale frames false last w
  = Returns tt w.
Proof. destruct frames; reflexivity. Qed.

Lemma still_running_no_close (events : list EventType) (running : bool) :
  Closed ∉ events -> still_running events running = running.
Proof. intros H. unfold still_running. rewrite bool_decide_eq_false_2 by exact H. reflexivity. Qed.

Lemma still_running_close (events : list EventType) (running : bool) :
  Closed ∈ events -> still_running events running = false.
Proof. intros H. unfold still_running. rewrite bool_decide_eq_true_2 by exact H. reflexivity. Qed.

Lemma renderLoop_until_close (pre : list Frame) (f : Frame) (rest : list Frame) :
  Forall (fun f => Closed ∉ frame_events f) pre ->
  Closed ∈ frame_events f ->
  forall (last : Z) (w : World),
    renderLoop obj objectPosition objectOrientation objectScale (pre ++ f :: rest) true last w
    = Returns tt
        (perform (frames_log obj objectPosition objectOrientation objectScale last (pre ++ [f])) w).
Proof.
  intros Hpre Hf. induction Hpre as [|g pre Hg _ IH]; intros last w.
  - cbn [app renderLoop frames_log].
    erewrite bind_returns by apply iteration_run.
    rewrite still_running_close by exact Hf.
    rewrite renderLoop_stopped, app_nil_r. reflexivity.
  - cbn [app renderLoop frames_log].
    erewrite bind_returns by apply iteration_run.
    rewrite still_running_no_close by exact Hg.
    rewrite IH, perform_app. reflexivity.
Qed.

Lemma renderLoop_waiting (frames : list Frame) :
  Forall (fun f => Closed ∉ frame_events f) frames ->
  forall (last : Z) (w : World),
    renderLoop obj objectPosition objectOrientation objectScale frames true last w
    = Starved
        (perform (frames_log obj objectPosition objectOrientation objectScale last frames) w).
Proof.
  intros Hpre. induction Hpre as [|g pre Hg _ IH]; intros last w.
  - reflexivity.
  - cbn [renderLoop frames_log].
    erewrite bind_returns by apply iteration_run.
    rewrite still_running_no_close by exact Hg.
    rewrite IH, perform_app. reflexivity.
Qed.

(** C6, amended.  The event-drain phase leaves [running] false as soon as
    a close event is among the events it drains, and it issues nothing
    but event polls.  Every iteration that is begun performs, in this
    order: the event polls, the clock reading and frame-rate print, the
    view and projection uniforms, the model uniform, the clear of colour
    and depth, the draw of the mesh, the presentation of the frame; the
    draw passes the face count as a [GLsizei].  When a close event
    arrives in some iteration, that iteration is still completed, its
    frame drawn and presented after the close event; no further
    iteration is begun, and [main] returns 0.  Without a close event the
    loop keeps running. *)
Theorem render_loop_protocol :
  (forall (events : list EventType) (running : bool) (w : World),
      drainEvents events running w
      = Returns (still_running events running) (perform (drain_log events) w)
      /\ (Closed ∈ events -> still_running events running = false)
      /\ Forall (fun c => exists ev, c = PollEvent ev) (drain_log events))
  /\ (forall (f : Frame) (running : bool) (last : Z) (w : World),
        exists w',
          iteration obj objectPosition objectOrientation objectScale f running last w
          = Returns (still_running (frame_events f) running, frame_now f) w'
          /\ log w' =
             log w
             ++ ((fun ev => PollEvent (Some ev)) <$> frame_events f)
             ++ [ PollEvent None;
                  GetElapsedTime (frame_now f);
                  PrintFps (frame_now f - last);
                  GetSize (frame_size f).1 (frame_size f).2;
                  GetSize (frame_size f).1 (frame_size f).2;
                  SetUniform "view"
                    (LookAt (glm.vec3.mk 0 0 0) (glm.vec3.mk 0 0 (-1)) (glm.vec3.mk 0 1 0));
                  SetUniform "projection"
                    (Perspective 45 (frame_size f).1 (frame_size f).2 (1 / 10) 100);
                  SetUniform "model"
                    (Matrix (buildModelMatrix objectPosition objectOrientation objectScale));
                  GL (Clear true true);
                  GL (BindTexture GL_TEXTURE_2D (Mesh.texture obj));
                  GL (BindVertexArray (Mesh.vao obj));
                  GL (DrawElements GL_TRIANGLES (to_GLsizei (Mesh.faces obj))
                        GL_UNSIGNED_INT);
                  GL (BindVertexArray 0);
                  GL (BindTexture GL_TEXTURE_2D 0);
                  Display ])
  /\ (forall (pre : list Frame) (f : Frame) (rest : list Frame) (start : Z) (w : World),
        Forall (fun f => Closed ∉ frame_events f) pre ->
        Closed ∈ frame_events f ->
        exists w',
          main_loop obj objectPosition objectOrientation objectScale start (pre ++ f :: rest) w
          = Returns 0 w'
          /\ log w' =
             log w ++ [Enable_DEPTH_TEST; GetElapsedTime start]
             ++ frames_log obj objectPosition objectOrientation objectScale start (pre ++ [f]))
  /\ (forall (frames : list Frame) (start : Z) (w : World),
        Forall (fun f => Closed ∉ frame_events f) frames ->
        result (main_loop obj objectPosition objectOrientation objectScale start frames w)
        = None).
Proof.
  split; [|split; [|split]].
  - intros events running w. split; [apply drainEvents_run|]. split.
    + apply still_running_close.
    + unfold drain_log. apply Forall_app. split.
      * apply Forall_fmap, Forall_true. intros ev. eexists. reflexivity.
      * repeat constructor. eexists. reflexivity.
  - intros f running last w. eexists. split; [apply iteration_run|].
    rewrite log_perform. unfold iteration_log, drain_log.
    rewrite <- !app_assoc. reflexivity.
  - intros pre f rest start w Hpre Hf. eexists. split.
    + unfold main_loop.
      erewrite bind_returns by reflexivity.
      erewrite bind_returns by reflexivity.
      erewrite bind_returns by (apply renderLoop_until_close; assumption).
      reflexivity.
    + rewrite log_perform. cbn [log record]. rewrite <- !app_assoc. reflexivity.
  - intros frames start w Hpre. unfold main_loop.
    erewrite bind_returns by reflexivity.
    erewrite bind_returns by reflexivity.
    unfold mbind, Prog_bind. rewrite renderLoop_waiting by assumption. reflexivity.
Qed.
End RenderLoopLaws.

Lemma render_loop_protocol_witness :
  exists w',
    main_loop (Mesh.mk 1 3 1) (glm.vec3.mk 0 0 (-3)) (glm.vec3.mk 0 0 0) (glm.vec3.mk 3 3 3) 0
      ([mkFrame [Resized] 16 (1200, 800)]
         ++ mkFrame [MouseMoved; Closed] 33 (1200, 800) :: [mkFrame [] 50 (1200, 800)])
      world_init
    = Returns 0 w'
    /\ log w' =
       log world_init ++ [Enable_DEPTH_TEST; GetElapsedTime 0]
       ++ frames_log (Mesh.mk 1 3 1) (glm.vec3.mk 0 0 (-3)) (glm.vec3.mk 0 0 0)
            (glm.vec3.mk 3 3 3) 0
            ([mkFrame [Resized] 16 (1200, 800)] ++ [mkFrame [MouseMoved; Closed] 33 (1200, 800)]).
Proof.
  apply (proj1 (proj2 (proj2 (render_loop_protocol _ _ _ _)))).
  - repeat constructor. cbn. rewrite elem_of_cons, elem_of_nil. intros [H|[]]. discriminate H.
  - cbn. rewrite !elem_of_cons. auto.
Defined.

(** C6 as stated fails on a window closed in its first frame: the close
    event is polled, and the frame is then drawn all the same. *)
Lemma render_loop_draws_after_close :
  ~ stops_before_next_draw
      (issued (main_loop (Mesh.mk 1 3 1) (glm.vec3.mk 0 0 (-3)) (glm.vec3.mk 0 0 0)
                 (glm.vec3.mk 3 3 3) 0 [closing_frame]) world_init).
Proof.
  intros H.
  assert (Hrun : main_loop (Mesh.mk 1 3 1) (glm.vec3.mk 0 0 (-3)) (glm.vec3.mk 0 0 0)
                   (glm.vec3.mk 3 3 3) 0 ([] ++ closing_frame :: []) world_init
                 = Returns 0
                     (perform ([Enable_DEPTH_TEST; GetElapsedTime 0]
                               ++ frames_log (Mesh.mk 1 3 1) (glm.vec3.mk 0 0 (-3))
                                    (glm.vec3.mk 0 0 0) (glm.vec3.mk 3 3 3) 0
                                    ([] ++ [closing_frame])) world_init)).
  { unfold main_loop.
    erewrite bind_returns by reflexivity.
    erewrite bind_returns by reflexivity.
    erewrite bind_returns
      by (apply renderLoop_until_close; [constructor | apply list_elem_of_here]).
    rewrite perform_app. reflexivity. }
  cbn [app] in Hrun. unfold issued in H. rewrite Hrun in H.
  cbn [world_of] in H. rewrite log_perform in H.
  cbn [log world_init length drop app frames_log iteration_log drain_log closing_frame
       frame_events fmap list_fmap] in H.
  specialize (H [Enable_DEPTH_TEST; GetElapsedTime 0] _ eq_refl).
  rewrite Forall_forall in H.
  specialize (H (GL (DrawElements GL_TRIANGLES (to_GLsizei 3) GL_UNSIGNED_INT))).
  assert (Hdraw : is_draw (GL (DrawElements GL_TRIANGLES (to_GLsizei 3) GL_UNSIGNED_INT))
                  = false).
  { apply H. cbn [drawMesh_commands Mesh.faces Mesh.vao Mesh.texture fmap list_fmap app].
    rewrite !elem_of_cons. auto 20. }
  discriminate Hdraw.
Qed.


Lemma client_take_vertices (vertices : list Vertex3D) :
  client_take (size_of vertices * sizeof_Vertex3D) (VertexData vertices) = VertexData vertices.
Proof.
  unfold client_take, size_of. f_equal.
  rewrite Z.div_mul by discriminate. rewrite Nat2Z.id. apply firstn_all.
Qed.

Lemma client_take_indices (faces : list Z) :
  client_take (size_of faces * sizeof_uint32) (IndexData faces) = IndexData faces.
Proof.
  unfold client_take, size_of. f_equal.
  rewrite Z.div_mul by discriminate. rewrite Nat2Z.id. apply firstn_all.
Qed.

Lemma bind_new_vertex_array (vaos : gmap Z VertexArray) (n : Z) :
  match vaos !! n with
  | Some _ => vaos
  | None => <[n := default_vertex_array]> vaos
  end = <[n := default default_vertex_array (vaos !! n)]> vaos.
Proof.
  destruct (vaos !! n) as [va|] eqn:E; cbn [default].
  - symmetry. apply insert_id, E.
  - reflexivity.
Qed.

(** The OpenGL state after the commands of [constructMesh]. *)
Lemma constructMesh_commands_state (vao vbo : Z) (vertices : list Vertex3D) (faces : list Z)
    (g : GLState) :
  vao <> 0 -> vbo <> 0 -> vbo + 1 <> 0 ->
  gl_run (constructMesh_commands vao vbo vertices faces) g
  = mkGL vao (vbo + 1) 0 vbo (gl_texture_2d g)
      (<[vao := mesh_vertex_array (bound_or_default g vao) vbo]> (gl_vaos g))
      (<[vbo + 1 := mesh_index_buffer faces]>
         (<[vbo := mesh_vertex_buffer vertices]> (gl_buffers g))).
Proof.
  intros Hvao Hvbo Hebo. unfold bound_or_default.
  destruct g as [lv lb bv ab bt vaos bufs].
  cbv [gl_run fold_left constructMesh_commands gl_exec gl_alter_bound gl_set_vaos
       gl_set_buffers gl_bound_buffer
       gl_last_vao gl_last_buffer gl_vertex_array gl_array_buffer gl_texture_2d
       gl_vaos gl_buffers].
  rewrite (decide_True (P := 0 = 0)) by reflexivity.
  rewrite !decide_False by assumption.
  rewrite bind_new_vertex_array.
  rewrite !alter_insert_eq, !lookup_insert_eq.
  cbn [va_attribs va_enabled va_element_buffer].
  rewrite decide_False by assumption.
  rewrite client_take_vertices, client_take_indices.
  rewrite !decide_False by assumption.
  reflexivity.
Qed.

Lemma gl_wf_init : gl_wf gl_init.
Proof.
  unfold gl_wf, gl_init. cbn. split; [lia|]. split; [lia|].
  split; intros k [x Hx]; rewrite lookup_empty in Hx; discriminate.
Qed.

Lemma constructMesh_state (vertices : list Vertex3D) (faces : list Z) (w : World) :
  vertices <> [] -> faces <> [] -> gl_wf (gl w) ->
  constructMesh vertices faces w
  = Returns (Mesh.mk (gl_last_vao (gl w) + 1) (to_uint32 (size_of faces)) 0)
      (mkWorld
         (mkGL (gl_last_vao (gl w) + 1) (gl_last_buffer (gl w) + 1 + 1) 0
            (gl_last_buffer (gl w) + 1) (gl_texture_2d (gl w))
            (<[gl_last_vao (gl w) + 1 :=
                 mesh_vertex_array default_vertex_array (gl_last_buffer (gl w) + 1)]>
               (gl_vaos (gl w)))
            (<[gl_last_buffer (gl w) + 1 + 1 := mesh_index_buffer faces]>
               (<[gl_last_buffer (gl w) + 1 := mesh_vertex_buffer vertices]>
                  (gl_buffers (gl w)))))
         (log w ++ (GL <$> constructMesh_commands (gl_last_vao (gl w) + 1)
                             (gl_last_buffer (gl w) + 1) vertices faces))).
Proof.
  intros Hv Hf (Hlv & Hlb & Hvaos & Hbufs).
  rewrite constructMesh_run by assumption. unfold issue.
  rewrite constructMesh_commands_state by lia.
  unfold bound_or_default.
  destruct (gl_vaos (gl w) !! (gl_last_vao (gl w) + 1)) as [va|] eqn:E.
  - assert (H : is_Some (gl_vaos (gl w) !! (gl_last_vao (gl w) + 1))) by (rewrite E; eauto).
    apply Hvaos in H. lia.
  - reflexivity.
Qed.

Lemma constructMesh_resident (vertices : list Vertex3D) (faces : list Z) (w : World) :
  vertices <> [] -> faces <> [] -> gl_wf (gl w) ->
  mesh_resident (gl (world_of (constructMesh vertices faces w)))
    (Mesh.mk (gl_last_vao (gl w) + 1) (to_uint32 (size_of faces)) 0) vertices faces.
Proof.
  intros Hv Hf Hwf. rewrite constructMesh_state by assumption.
  unfold mesh_resident. cbn [world_of gl gl_vaos gl_buffers Mesh.vao Mesh.faces].
  split; [reflexivity|].
  exists (mesh_vertex_array default_vertex_array (gl_last_buffer (gl w) + 1)),
         (gl_last_buffer (gl w) + 1).
  rewrite lookup_insert_eq.
  split; [reflexivity|]. cbn [mesh_vertex_array va_attribs va_enabled va_element_buffer].
  rewrite !lookup_insert_eq. split; [reflexivity|]. split; [|split].
  - apply elem_of_union_l, elem_of_singleton. reflexivity.
  - rewrite lookup_insert_ne by lia. apply lookup_insert_eq.
  - reflexivity.
Qed.

Lemma constructMesh_wf (vertices : list Vertex3D) (faces : list Z) (w : World) :
  vertices <> [] -> faces <> [] -> gl_wf (gl w) ->
  gl_wf (gl (world_of (constructMesh vertices faces w))).
Proof.
  intros Hv Hf Hwf. rewrite constructMesh_state by assumption.
  destruct Hwf as (Hlv & Hlb & Hvaos & Hbufs).
  cbn [world_of gl]. unfold gl_wf. cbn [gl_last_vao gl_last_buffer gl_vaos gl_buffers].
  split; [lia|]. split; [lia|]. split.
  - intros n Hn. destruct (decide (n = gl_last_vao (gl w) + 1)) as [->|Hne]; [lia|].
    rewrite lookup_insert_ne in Hn by congruence. apply Hvaos in Hn. lia.
  - intros n Hn.
    destruct (decide (n = gl_last_buffer (gl w) + 1 + 1)) as [->|Hne]; [lia|].
    rewrite lookup_insert_ne in Hn by congruence.
    destruct (decide (n = gl_last_buffer (gl w) + 1)) as [->|Hne']; [lia|].
    rewrite lookup_insert_ne in Hn by congruence. apply Hbufs in Hn. lia.
Qed.

(** X1. Given non-empty vertex and index lists and a well-formed OpenGL state,
    constructMesh returns a mesh that is resident in the state it leaves: the
    vertex array it names exists, its attribute 0 reads three floats per
    20-byte record at offset 0 from a buffer holding exactly the vertices, its
    element buffer holds exactly the indices, and its face count is the number
    of indices modulo 2^32; attribute 0 is the only attribute the vertex array
    has configured and the only one enabled. *)
Theorem constructMesh_makes_resident (vertices : list Vertex3D) (faces : list Z) (w : World) :
  vertices <> [] -> faces <> [] -> gl_wf (gl w) ->
  exists m w',
    constructMesh vertices faces w = Returns m w'
    /\ mesh_resident (gl w') m vertices faces
    /\ (va_attribs <$> gl_vaos (gl w') !! Mesh.vao m)
       = Some {[ 0 := mkAttrib 3 GL_FLOAT false sizeof_Vertex3D 0 (gl_last_buffer (gl w) + 1) ]}
    /\ (va_enabled <$> gl_vaos (gl w') !! Mesh.vao m) = Some {[ 0 ]}.
Proof.
  intros Hv Hf Hwf.
  pose proof (constructMesh_resident vertices faces w Hv Hf Hwf) as Hres.
  rewrite constructMesh_state in Hres by assumption.
  eexists _, _. split; [apply constructMesh_state; assumption|].
  split; [exact Hres|].
  cbn [gl gl_vaos Mesh.vao]. rewrite lookup_insert_eq. split; reflexivity.
Qed.

(** X2. Given non-empty lists, constructMesh keeps the OpenGL state well-
    formed (every vertex-array and buffer name is positive and was handed out
    by a glGen call), leaves no vertex array bound, leaves its new vertex
    buffer bound to GL_ARRAY_BUFFER (only the vertex array is unbound), and
    does not touch the texture binding. *)
Theorem constructMesh_keeps_wf (vertices : list Vertex3D) (faces : list Z) (w : World) :
  vertices <> [] -> faces <> [] -> gl_wf (gl w) ->
  gl_wf (gl (world_of (constructMesh vertices faces w)))
  /\ gl_vertex_array (gl (world_of (constructMesh vertices faces w))) = 0
  /\ gl_array_buffer (gl (world_of (constructMesh vertices faces w)))
     = gl_last_buffer (gl w) + 1
  /\ gl_texture_2d (gl (world_of (constructMesh vertices faces w))) = gl_texture_2d (gl w).
Proof.
  intros Hv Hf Hwf. split; [apply constructMesh_wf; assumption|].
  rewrite constructMesh_state by assumption. repeat split.
Qed.

(** X3. Building a second mesh does not disturb a first: in a well-formed
    state where a mesh is resident, constructMesh returns a mesh with a
    different vertex-array name, the earlier mesh is still resident
    afterwards, every other vertex array is unchanged and every buffer that
    existed keeps its contents. *)
Theorem constructMesh_preserves_meshes (vertices v0 : list Vertex3D) (faces f0 : list Z)
    (m0 : Mesh) (w : World) :
  vertices <> [] -> faces <> [] -> gl_wf (gl w) ->
  mesh_resident (gl w) m0 v0 f0 ->
  exists m w',
    constructMesh vertices faces w = Returns m w'
    /\ Mesh.vao m <> Mesh.vao m0
    /\ mesh_resident (gl w') m0 v0 f0
    /\ (forall n, n <> Mesh.vao m -> gl_vaos (gl w') !! n = gl_vaos (gl w) !! n)
    /\ (forall n, is_Some (gl_buffers (gl w) !! n) ->
                  gl_buffers (gl w') !! n = gl_buffers (gl w) !! n).
Proof.
  intros Hv Hf Hwf (Hfaces & va & vbo & Hva & Hattr & Hen & Hvb & Hib).
  eexists _, _. split; [apply constructMesh_state; assumption|].
  destruct Hwf as (Hlv & Hlb & Hvaos & Hbufs).
  unfold mesh_resident. cbn [gl gl_vaos gl_buffers Mesh.vao].
  assert (Hm0 : 0 < Mesh.vao m0 <= gl_last_vao (gl w)) by (apply Hvaos; eauto).
  assert (Hkeep : forall n, is_Some (gl_buffers (gl w) !! n) ->
            <[gl_last_buffer (gl w) + 1 + 1 := mesh_index_buffer faces]>
              (<[gl_last_buffer (gl w) + 1 := mesh_vertex_buffer vertices]>
                 (gl_buffers (gl w))) !! n = gl_buffers (gl w) !! n).
  { intros n Hn. apply Hbufs in Hn. rewrite !lookup_insert_ne by lia. reflexivity. }
  split; [lia|]. split; [|split].
  - split; [exact Hfaces|]. exists va, vbo.
    rewrite lookup_insert_ne by lia. rewrite !Hkeep by eauto. auto.
  - intros n Hn. rewrite lookup_insert_ne by congruence. reflexivity.
  - exact Hkeep.
Qed.


Lemma same_objects_refl (g : GLState) : same_objects g g.
Proof. unfold same_objects. auto. Qed.

Lemma same_objects_trans (g1 g2 g3 : GLState) :
  same_objects g1 g2 -> same_objects g2 g3 -> same_objects g1 g3.
Proof.
  intros (Hb & Hv & Hl & Ha & Hk) (Hb' & Hv' & Hl' & Ha' & Hk').
  unfold same_objects. repeat split; try congruence.
  intros n Hn. rewrite Hk', Hk; [reflexivity | exact Hn |]. rewrite Hk; exact Hn.
Qed.

Lemma same_objects_resident (g g' : GLState) (m : Mesh) (vertices : list Vertex3D)
    (faces : list Z) :
  same_objects g g' -> mesh_resident g m vertices faces -> mesh_resident g' m vertices faces.
Proof.
  intros (Hb & _ & _ & _ & Hk) (Hf & va & vbo & Hva & Hrest).
  split; [exact Hf|]. exists va, vbo. rewrite Hk by eauto. rewrite Hb. auto.
Qed.

(** The OpenGL state after the commands of [drawMesh]. *)
Lemma drawMesh_commands_state (m : Mesh) (g : GLState) :
  gl_run (drawMesh_commands m) g
  = mkGL (gl_last_vao g) (gl_last_buffer g) 0 (gl_array_buffer g) 0
      (if decide (Mesh.vao m = 0) then gl_vaos g
       else <[Mesh.vao m := bound_or_default g (Mesh.vao m)]> (gl_vaos g))
      (gl_buffers g).
Proof.
  unfold bound_or_default. destruct g as [lv lb bv ab bt vaos bufs].
  cbv [gl_run fold_left drawMesh_commands gl_exec
       gl_last_vao gl_last_buffer gl_vertex_array gl_array_buffer gl_texture_2d
       gl_vaos gl_buffers].
  rewrite (decide_True (P := 0 = 0)) by reflexivity.
  rewrite bind_new_vertex_array. reflexivity.
Qed.

Lemma drawMesh_same_objects (m : Mesh) (g : GLState) :
  same_objects g (gl_run (drawMesh_commands m) g).
Proof.
  rewrite drawMesh_commands_state. unfold same_objects.
  cbn [gl_buffers gl_last_vao gl_last_buffer gl_array_buffer gl_vaos].
  repeat split. intros n [va Hn]. case_decide; [reflexivity|].
  destruct (decide (n = Mesh.vao m)) as [->|Hne].
  - rewrite lookup_insert_eq. unfold bound_or_default. rewrite Hn. reflexivity.
  - rewrite lookup_insert_ne by congruence. reflexivity.
Qed.

(** The count that arrives at [glDrawElements]: the face count itself
    below 2^31, and a negative number from there on. *)
Lemma to_GLsizei_small (n : Z) : 0 <= n < 2 ^ 31 -> to_GLsizei n = n.
Proof. intros H. unfold to_GLsizei. rewrite Z.mod_small by lia. lia. Qed.

Lemma to_GLsizei_large (n : Z) : 2 ^ 31 <= n < 2 ^ 32 -> to_GLsizei n = n - 2 ^ 32.
Proof.
  intros H. unfold to_GLsizei.
  replace (n + 2 ^ 31) with (n - 2 ^ 31 + 1 * 2 ^ 32) by lia.
  rewrite Z.mod_add by lia. rewrite Z.mod_small by lia. lia.
Qed.

(** X4. drawMesh always returns, issues exactly one draw command
    (GL_TRIANGLES, the mesh's face count converted from uint32_t to the signed
    32-bit GLsizei, GL_UNSIGNED_INT), ends with vertex array 0 and texture 0
    bound whatever was bound before, and changes no buffer, no name counter,
    no array-buffer binding and no existing vertex array. The count passed is
    the face count itself when that is below 2^31, and the face count minus
    2^32, a negative number, when it is 2^31 or more. *)
Theorem drawMesh_leaves_nothing_bound (m : Mesh) (w : World) :
  exists w',
    drawMesh m w = Returns tt w'
    /\ gl_vertex_array (gl w') = 0
    /\ gl_texture_2d (gl w') = 0
    /\ same_objects (gl w) (gl w')
    /\ draw_commands (issued (drawMesh m) w)
       = [DrawElements GL_TRIANGLES (to_GLsizei (Mesh.faces m)) GL_UNSIGNED_INT]
    /\ (0 <= Mesh.faces m < 2 ^ 31 -> to_GLsizei (Mesh.faces m) = Mesh.faces m)
    /\ (2 ^ 31 <= Mesh.faces m < 2 ^ 32 ->
        to_GLsizei (Mesh.faces m) = Mesh.faces m - 2 ^ 32
        /\ to_GLsizei (Mesh.faces m) < 0).
Proof.
  eexists. split; [apply drawMesh_run|]. unfold issue. cbn [gl].
  split; [|split; [|split; [|split; [|split]]]].
  - rewrite drawMesh_commands_state. reflexivity.
  - rewrite drawMesh_commands_state. reflexivity.
  - apply drawMesh_same_objects.
  - erewrite issued_issue by (rewrite drawMesh_run; reflexivity). reflexivity.
  - apply to_GLsizei_small.
  - intros H. rewrite to_GLsizei_large by exact H. split; [reflexivity | lia].
Qed.

(** X5. constructMesh followed by drawMesh of the mesh it returned: for non-
    empty lists in a well-formed state the pair returns, the only draw command
    issued has as its count the number of indices modulo 2^32 converted to the
    signed 32-bit GLsizei, the mesh is still resident afterwards and no vertex
    array is left bound. *)
Theorem draw_after_constructMesh (vertices : list Vertex3D) (faces : list Z) (w : World) :
  vertices <> [] -> faces <> [] -> gl_wf (gl w) ->
  exists m w',
    (m ← constructMesh vertices faces; drawMesh m;; mret m) w = Returns m w'
    /\ draw_commands (issued (m ← constructMesh vertices faces; drawMesh m;; mret m) w)
       = [DrawElements GL_TRIANGLES (to_GLsizei (size_of faces mod 2 ^ 32)) GL_UNSIGNED_INT]
    /\ mesh_resident (gl w') m vertices faces
    /\ gl_vertex_array (gl w') = 0.
Proof.
  intros Hv Hf Hwf.
  pose proof (constructMesh_resident vertices faces w Hv Hf Hwf) as Hres.
  rewrite constructMesh_run in Hres by assumption. cbn [world_of] in Hres.
  set (m := Mesh.mk (gl_last_vao (gl w) + 1) (to_uint32 (size_of faces)) 0) in *.
  set (w1 := issue (constructMesh_commands (gl_last_vao (gl w) + 1)
                      (gl_last_buffer (gl w) + 1) vertices faces) w) in *.
  assert (Hrun : constructMesh vertices faces w = Returns m w1)
    by (apply constructMesh_run; assumption).
  exists m, (issue (drawMesh_commands m) w1).
  assert (Hprog : (m ← constructMesh vertices faces; drawMesh m;; mret m) w
                  = Returns m (issue (drawMesh_commands m) w1)).
  { erewrite bind_returns by exact Hrun.
    erewrite bind_returns by apply drawMesh_run. reflexivity. }
  split; [exact Hprog|]. split; [|split].
  - unfold issued. rewrite Hprog. cbn [world_of]. unfold w1, issue. cbn [log].
    rewrite <- app_assoc, drop_app_length. reflexivity.
  - unfold issue. cbn [gl].
    eapply same_objects_resident; [apply drawMesh_same_objects | exact Hres].
  - unfold issue. cbn [gl]. rewrite drawMesh_commands_state. reflexivity.
Qed.


(** ** More on the render loop *)

Lemma gl_perform (calls : list Call) (w : World) :
  gl (perform calls w) = gl_run (gl_commands calls) (gl w).
Proof.
  revert w. induction calls as [|c calls IH]; intros w; [reflexivity|].
  change (perform (c :: calls) w) with (perform calls (record c w)).
  rewrite IH. destruct c; reflexivity.
Qed.

Lemma gl_run_app (a b : list GLCommand) (g : GLState) :
  gl_run (a ++ b) g = gl_run b (gl_run a g).
Proof. apply fold_left_app. Qed.

Lemma gl_commands_app (a b : list Call) :
  gl_commands (a ++ b) = gl_commands a ++ gl_commands b.
Proof. apply omap_app. Qed.

Lemma gl_commands_drain (events : list EventType) : gl_commands (drain_log events) = [].
Proof.
  unfold drain_log. rewrite gl_commands_app. cbn. rewrite app_nil_r.
  induction events as [|ev events IH]; [reflexivity | exact IH].
Qed.

Lemma frames_presented_app (a b : list Call) :
  frames_presented (a ++ b) = (frames_presented a + frames_presented b)%nat.
Proof. unfold frames_presented. rewrite omap_app, length_app. reflexivity. Qed.

Lemma draw_commands_app (a b : list Call) :
  draw_commands (a ++ b) = draw_commands a ++ draw_commands b.
Proof. apply omap_app. Qed.

Lemma frames_presented_drain (events : list EventType) :
  frames_presented (drain_log events) = 0%nat /\ draw_commands (drain_log events) = [].
Proof.
  unfold drain_log. rewrite frames_presented_app, draw_commands_app. cbn.
  rewrite app_nil_r, Nat.add_0_r.
  induction events as [|ev events IH]; [split; reflexivity | exact IH].
Qed.

Section RenderLoopMore.
Variables (obj : Mesh) (objectPosition objectOrientation objectScale : glm.vec3).

Lemma gl_commands_iteration (f : Frame) (last : Z) :
  gl_commands (iteration_log obj objectPosition objectOrientation objectScale f last)
  = Clear true true :: drawMesh_commands obj.
Proof.
  unfold iteration_log. rewrite gl_commands_app, gl_commands_drain. reflexivity.
Qed.

Lemma iteration_counts (f : Frame) (last : Z) :
  frames_presented (iteration_log obj objectPosition objectOrientation objectScale f last)
  = 1%nat
  /\ draw_commands (iteration_log obj objectPosition objectOrientation objectScale f last)
     = [DrawElements GL_TRIANGLES (to_GLsizei (Mesh.faces obj)) GL_UNSIGNED_INT].
Proof.
  unfold iteration_log. rewrite frames_presented_app, draw_commands_app.
  destruct (frames_presented_drain (frame_events f)) as [-> ->]. split; reflexivity.
Qed.

Lemma frames_log_counts (frames : list Frame) :
  forall last : Z,
    frames_presented (frames_log obj objectPosition objectOrientation objectScale last frames)
    = length frames
    /\ draw_commands (frames_log obj objectPosition objectOrientation objectScale last frames)
       = replicate (length frames) (DrawElements GL_TRIANGLES (to_GLsizei (Mesh.faces obj)) GL_UNSIGNED_INT).
Proof.
  induction frames as [|f frames IH]; intros last; [split; reflexivity|].
  cbn [frames_log length replicate].
  rewrite frames_presented_app, draw_commands_app.
  destruct (iteration_counts f last) as [-> ->].
  destruct (IH (frame_now f)) as [-> ->]. split; reflexivity.
Qed.

Lemma iteration_same_objects (f : Frame) (last : Z) (w : World) :
  same_objects (gl w)
    (gl (perform (iteration_log obj objectPosition objectOrientation objectScale f last) w))
  /\ gl_vertex_array
       (gl (perform (iteration_log obj objectPosition objectOrientation objectScale f last) w))
     = 0
  /\ gl_texture_2d
       (gl (perform (iteration_log obj objectPosition objectOrientation objectScale f last) w))
     = 0.
Proof.
  rewrite gl_perform, gl_commands_iteration.
  change (gl_run (Clear true true :: drawMesh_commands obj) (gl w))
    with (gl_run (drawMesh_commands obj) (gl w)).
  split; [apply drawMesh_same_objects|]. rewrite drawMesh_commands_state. split; reflexivity.
Qed.


(** X6. The render loop never changes the OpenGL objects: for any frames, any
    running flag and any starting state, buffers, name counters, the array-
    buffer binding and every existing vertex array are the same after the loop
    as before, so a mesh that was resident before the loop is resident after
    it. *)
Theorem renderLoop_keeps_objects (frames : list Frame) :
  forall (running : bool) (last : Z) (w : World),
    same_objects (gl w)
      (gl (world_of (renderLoop obj objectPosition objectOrientation objectScale
                       frames running last w)))
    /\ (forall (m : Mesh) (vertices : list Vertex3D) (faces : list Z),
          mesh_resident (gl w) m vertices faces ->
          mesh_resident
            (gl (world_of (renderLoop obj objectPosition objectOrientation objectScale
                             frames running last w)))
            m vertices faces).
Proof.
  assert (H : forall (running : bool) (last : Z) (w : World),
    same_objects (gl w)
      (gl (world_of (renderLoop obj objectPosition objectOrientation objectScale
                       frames running last w)))).
  { induction frames as [|f frames IH]; intros running last w.
    - destruct running; apply same_objects_refl.
    - destruct running; [|apply same_objects_refl].
      cbn [renderLoop]. erewrite bind_returns by apply iteration_run.
      eapply same_objects_trans; [apply iteration_same_objects | apply IH]. }
  intros running last w. split; [apply H|].
  intros m vertices faces. apply same_objects_resident, H.
Qed.

Lemma main_loop_run (pre : list Frame) (f : Frame) (rest : list Frame) (start : Z)
    (w : World) :
  Forall (fun f => Closed ∉ frame_events f) pre ->
  Closed ∈ frame_events f ->
  main_loop obj objectPosition objectOrientation objectScale start (pre ++ f :: rest) w
  = Returns 0
      (perform ([Enable_DEPTH_TEST; GetElapsedTime start]
                ++ frames_log obj objectPosition objectOrientation objectScale start
                     (pre ++ [f])) w).
Proof.
  intros Hpre Hf. unfold main_loop.
  erewrite bind_returns by reflexivity.
  erewrite bind_returns by reflexivity.
  erewrite bind_returns by (apply renderLoop_until_close; assumption).
  rewrite perform_app. reflexivity.
Qed.

Lemma renderLoop_never_exits (frames : list Frame) :
  forall (running : bool) (last : Z) (w : World),
    exists w',
      renderLoop obj objectPosition objectOrientation objectScale frames running last w
      = Returns tt w'
      \/ renderLoop obj objectPosition objectOrientation objectScale frames running last w
         = Starved w'.
Proof.
  induction frames as [|f frames IH]; intros running last w.
  - destruct running; eexists; [right | left]; reflexivity.
  - destruct running; [|eexists; left; reflexivity].
    cbn [renderLoop]. erewrite bind_returns by apply iteration_run. apply IH.
Qed.

Lemma main_loop_never_exits (start : Z) (frames : list Frame) (w : World) :
  exists w',
    main_loop obj objectPosition objectOrientation objectScale start frames w = Returns 0 w'
    \/ main_loop obj objectPosition objectOrientation objectScale start frames w = Starved w'.
Proof.
  assert (H : forall w0 : World, exists w',
    (renderLoop obj objectPosition objectOrientation objectScale frames true start;;
     mret 0) w0 = Returns 0 w'
    \/ (renderLoop obj objectPosition objectOrientation objectScale frames true start;;
        mret 0) w0 = Starved w').
  { intros w0. unfold mbind, Prog_bind.
    destruct (renderLoop_never_exits frames true start w0) as [w' [-> | ->]];
      exists w'; [left | right]; reflexivity. }
  unfold main_loop.
  erewrite bind_returns by reflexivity.
  erewrite bind_returns by reflexivity.
  apply H.
Qed.

(** X7. When the first close event arrives in the frame after n frames without
    one, the loop of main presents exactly n + 1 frames and issues exactly n +
    1 draw commands, each of GL_TRIANGLES with the face count of the object
    converted to the signed 32-bit GLsizei; frames supplied after the closing
    one are never drawn. *)
Theorem main_loop_presents_frames (pre : list Frame) (f : Frame) (rest : list Frame)
    (start : Z) (w : World) :
  Forall (fun f => Closed ∉ frame_events f) pre ->
  Closed ∈ frame_events f ->
  frames_presented
    (issued (main_loop obj objectPosition objectOrientation objectScale start
               (pre ++ f :: rest)) w)
  = S (length pre)
  /\ draw_commands
       (issued (main_loop obj objectPosition objectOrientation objectScale start
                  (pre ++ f :: rest)) w)
     = replicate (S (length pre)) (DrawElements GL_TRIANGLES (to_GLsizei (Mesh.faces obj)) GL_UNSIGNED_INT).
Proof.
  intros Hpre Hf.
  assert (Hlog : issued (main_loop obj objectPosition objectOrientation objectScale start
                           (pre ++ f :: rest)) w
                 = [Enable_DEPTH_TEST; GetElapsedTime start]
                   ++ frames_log obj objectPosition objectOrientation objectScale start
                        (pre ++ [f])).
  { unfold issued. rewrite main_loop_run by assumption.
    cbn [world_of]. rewrite log_perform. apply drop_app_length. }
  rewrite Hlog, frames_presented_app, draw_commands_app.
  destruct (frames_log_counts (pre ++ [f]) start) as [-> ->].
  rewrite length_app. cbn [length]. rewrite Nat.add_1_r. split; reflexivity.
Qed.

End RenderLoopMore.


(** ** More on the asset import adapter *)

Section ImportMore.

Lemma face_body_run (f : aiFace) (faces : list Z) (w : World) :
  (3 <= aiFace.mNumIndices f)%nat ->
  (i0 ← at_index (aiFace.mIndices f) 0;
   let faces := faces ++ [i0] in
   i1 ← at_index (aiFace.mIndices f) 1;
   let faces := faces ++ [i1] in
   i2 ← at_index (aiFace.mIndices f) 2;
   let faces := faces ++ [i2] in
   mret faces) w
  = Returns (faces ++ face_indices f) w.
Proof.
  intros H. destruct f as [[|i0 [|i1 [|i2 rest]]]]; cbn in H; try lia.
  unfold face_indices.
  cbv [mbind Prog_bind mret Prog_ret at_index lookup list_lookup aiFace.mIndices take].
  rewrite <- !app_assoc. reflexivity.
Qed.


Lemma for_loop_faces_prefix (l : list aiFace) :
  forall (suf pre : list aiFace) (acc : list Z) (w : World),
    l = pre ++ suf ->
    Forall (fun f => (3 <= aiFace.mNumIndices f)%nat) suf ->
    for_loop (length suf) (length pre)
      (fun i faces =>
         f ← at_index l i;
         i0 ← at_index (aiFace.mIndices f) 0;
         let faces := faces ++ [i0] in
         i1 ← at_index (aiFace.mIndices f) 1;
         let faces := faces ++ [i1] in
         i2 ← at_index (aiFace.mIndices f) 2;
         let faces := faces ++ [i2] in
         mret faces) acc w
    = Returns (acc ++ concat (face_indices <$> suf)) w.
Proof.
  induction suf as [|f suf IH]; intros pre acc w Hl Hall.
  - cbn. rewrite app_nil_r. reflexivity.
  - apply Forall_cons in Hall as [Hf Hall].
    cbn [for_loop length].
    erewrite bind_returns; cycle 1.
    { erewrite bind_returns by (rewrite Hl; apply at_index_middle).
      apply face_body_run, Hf. }
    replace (S (length pre)) with (length (pre ++ [f])) by (rewrite length_app; cbn; lia).
    rewrite IH by (first [rewrite Hl, <- app_assoc; reflexivity | assumption]).
    cbn [fmap list_fmap concat]. rewrite <- app_assoc. reflexivity.
Qed.


Lemma fromAssimpMesh_polygons (mesh : aiMesh) (vertices : list Vertex3D)
    (faces : list Z) (w : World) :
  Forall (fun f => (3 <= aiFace.mNumIndices f)%nat) (aiMesh.mFaces mesh) ->
  fromAssimpMesh mesh vertices faces w
  = Returns (vertices ++ (imported_vertex <$> aiMesh.mVertices mesh),
             faces ++ concat (face_indices <$> aiMesh.mFaces mesh)) w.
Proof.
  intros Hall. unfold fromAssimpMesh.
  erewrite bind_returns
    by (apply (for_loop_vertices _ (aiMesh.mVertices mesh) []); reflexivity).
  erewrite bind_returns
    by (apply (for_loop_faces_prefix _ (aiMesh.mFaces mesh) []); [reflexivity | exact Hall]).
  reflexivity.
Qed.

(** X8. When every face of the source mesh has at least three indices,
    fromAssimpMesh returns, appending one vertex per source vertex to the
    vertex list and, to the index list, the first three indices of each face
    in face order: the indices of a polygon beyond the third are dropped
    without a diagnostic. *)
Theorem fromAssimpMesh_takes_three_per_face (mesh : aiMesh) (vertices : list Vertex3D)
    (faces : list Z) (w : World) :
  Forall (fun f => (3 <= aiFace.mNumIndices f)%nat) (aiMesh.mFaces mesh) ->
  fromAssimpMesh mesh vertices faces w
  = Returns (vertices ++ (imported_vertex <$> aiMesh.mVertices mesh),
             faces ++ concat (face_indices <$> aiMesh.mFaces mesh)) w.
Proof. apply fromAssimpMesh_polygons. Qed.


End ImportMore.


Section LoadMore.

Lemma load_first_mesh_cons (mesh : aiMesh) (rest : list aiMesh) (w : World) :
  load_first_mesh (mesh :: rest) w
  = ('(vertices, faces) ← fromAssimpMesh mesh [] []; constructMesh vertices faces) w.
Proof. reflexivity. Qed.

Lemma assimpLoad_scene (assets : Assets) (path : string) (flipUvs : bool) (w : World)
    (mesh : aiMesh) (rest : list aiMesh) :
  assets path = inr (aiScene.mk (mesh :: rest)) ->
  assimpLoad assets path flipUvs w
  = ('(vertices, faces) ← fromAssimpMesh mesh [] []; constructMesh vertices faces)
      (record (ReadFile path (import_flags flipUvs)) w).
Proof.
  intros H. rewrite assimpLoad_unfold, H. destruct flipUvs; reflexivity.
Qed.

Lemma face_indices_length (fs : list aiFace) :
  Forall (fun f => (3 <= aiFace.mNumIndices f)%nat) fs ->
  size_of (concat (face_indices <$> fs)) = 3 * size_of fs.
Proof.
  unfold size_of. induction 1 as [|f fs Hf _ IH]; [reflexivity|].
  cbn [fmap list_fmap concat length]. rewrite length_app.
  unfold face_indices at 1. rewrite length_take.
  unfold aiFace.mNumIndices in Hf. rewrite Nat.min_l by exact Hf. lia.
Qed.

(** X10. When the first mesh of the loaded scene has no vertices or no faces
    (its faces having at least three indices each), the behaviour of
    assimpLoad is undefined: constructMesh applies operator[] at index 0 to an
    empty vector, which is outside its bounds, after a vertex array name has
    already been generated; the outcome is undefined behaviour, not the exit
    with status 1 of a failed import. *)
Theorem assimpLoad_empty_geometry (assets : Assets) (path : string) (flipUvs : bool)
    (w : World) (mesh : aiMesh) (rest : list aiMesh) :
  assets path = inr (aiScene.mk (mesh :: rest)) ->
  Forall (fun f => (3 <= aiFace.mNumIndices f)%nat) (aiMesh.mFaces mesh) ->
  aiMesh.mVertices mesh = [] \/ aiMesh.mFaces mesh = [] ->
  exists w',
    assimpLoad assets path flipUvs w = Undefined (IndexOutOfRange 0 0) w'
    /\ gl_last_vao (gl w') = gl_last_vao (gl w) + 1.
Proof.
  intros H Hall Hempty. rewrite (assimpLoad_scene _ _ _ _ mesh rest) by exact H.
  erewrite bind_returns by (apply fromAssimpMesh_polygons, Hall).
  cbn [app].
  destruct (aiMesh.mVertices mesh) as [|p ps] eqn:Hv.
  - cbn [fmap list_fmap]. rewrite constructMesh_no_vertices. eexists. split; reflexivity.
  - destruct Hempty as [Hcontra | ->]; [discriminate Hcontra|].
    cbn [fmap list_fmap concat].
    rewrite constructMesh_no_faces by discriminate. eexists. split; reflexivity.
Qed.

(** [assimpLoad] on a scene whose first mesh has vertices and faces of at
    least three indices. *)
Lemma assimpLoad_run (assets : Assets) (path : string) (flipUvs : bool)
    (w : World) (mesh : aiMesh) (rest : list aiMesh) :
  assets path = inr (aiScene.mk (mesh :: rest)) ->
  Forall (fun f => (3 <= aiFace.mNumIndices f)%nat) (aiMesh.mFaces mesh) ->
  aiMesh.mVertices mesh <> [] -> aiMesh.mFaces mesh <> [] ->
  imported_vertex <$> aiMesh.mVertices mesh <> []
  /\ concat (face_indices <$> aiMesh.mFaces mesh) <> []
  /\ assimpLoad assets path flipUvs w
     = constructMesh (imported_vertex <$> aiMesh.mVertices mesh)
         (concat (face_indices <$> aiMesh.mFaces mesh))
         (record (ReadFile path (import_flags flipUvs)) w).
Proof.
  intros H Hall Hv Hf. split; [|split].
  - destruct (aiMesh.mVertices mesh); [congruence | discriminate].
  - intros Hnil. pose proof (face_indices_length _ Hall) as Hlen.
    rewrite Hnil in Hlen. unfold size_of in Hlen. cbn in Hlen.
    destruct (aiMesh.mFaces mesh); [congruence | cbn in Hlen; lia].
  - rewrite (assimpLoad_scene _ _ _ _ mesh rest) by exact H.
    erewrite bind_returns by (apply fromAssimpMesh_polygons, Hall).
    reflexivity.
Qed.

(** X11. When the scene's first mesh has vertices and faces of at least three
    indices each and the OpenGL state is well-formed, assimpLoad returns a
    mesh on the next vertex-array name with face count 3 * mNumFaces modulo
    2^32 and texture 0; that mesh is resident with the imported vertices and
    the first three indices of each face, the state stays well-formed, and the
    only attribute pointer configured during the load is attribute 0 (three
    floats, stride 20, offset 0). *)
Theorem assimpLoad_builds_first_mesh (assets : Assets) (path : string) (flipUvs : bool)
    (w : World) (mesh : aiMesh) (rest : list aiMesh) :
  assets path = inr (aiScene.mk (mesh :: rest)) ->
  Forall (fun f => (3 <= aiFace.mNumIndices f)%nat) (aiMesh.mFaces mesh) ->
  aiMesh.mVertices mesh <> [] -> aiMesh.mFaces mesh <> [] ->
  gl_wf (gl w) ->
  exists m w',
    assimpLoad assets path flipUvs w = Returns m w'
    /\ m = Mesh.mk (gl_last_vao (gl w) + 1)
             ((3 * Z.of_nat (aiMesh.mNumFaces mesh)) mod 2 ^ 32) 0
    /\ mesh_resident (gl w') m (imported_vertex <$> aiMesh.mVertices mesh)
         (concat (face_indices <$> aiMesh.mFaces mesh))
    /\ gl_wf (gl w')
    /\ attribute_commands (issued (assimpLoad assets path flipUvs) w)
       = [VertexAttribPointer 0 3 GL_FLOAT false sizeof_Vertex3D 0].
Proof.
  intros H Hall Hv Hf Hwf.
  destruct (assimpLoad_run assets path flipUvs w mesh rest H Hall Hv Hf)
    as (Hvs & Hfs & Hrun).
  set (vs := imported_vertex <$> aiMesh.mVertices mesh) in *.
  set (fs := concat (face_indices <$> aiMesh.mFaces mesh)) in *.
  set (w1 := record (ReadFile path (import_flags flipUvs)) w) in *.
  assert (Hwf1 : gl_wf (gl w1)) by exact Hwf.
  pose proof (constructMesh_resident vs fs w1 Hvs Hfs Hwf1) as Hres.
  pose proof (constructMesh_wf vs fs w1 Hvs Hfs Hwf1) as Hk.
  rewrite constructMesh_run in Hres, Hk by assumption. cbn [world_of] in Hres, Hk.
  eexists _, _. rewrite Hrun.
  split; [apply constructMesh_run; assumption|].
  split; [|split; [|split]].
  - f_equal. unfold to_uint32. subst fs.
    rewrite face_indices_length by exact Hall. reflexivity.
  - replace (gl_last_vao (gl w)) with (gl_last_vao (gl w1)) by reflexivity.
    assert (Hfaces : (3 * Z.of_nat (aiMesh.mNumFaces mesh)) mod 2 ^ 32 = to_uint32 (size_of fs)).
    { unfold to_uint32. subst fs. rewrite face_indices_length by exact Hall. reflexivity. }
    exact Hres.
  - exact Hk.
  - unfold issued. rewrite Hrun, constructMesh_run by assumption. cbn [world_of].
    unfold issue, w1. cbn [log record]. rewrite <- app_assoc, drop_app_length. reflexivity.
Qed.

Lemma import_flags_bits (flipUvs : bool) :
  Z.testbit (import_flags flipUvs) 23 = flipUvs
  /\ Z.clearbit (import_flags flipUvs) 23 = aiProcessPreset_TargetRealtime_MaxQuality
  /\ Forall (fun step => Z.land (import_flags flipUvs) step = step)
       [aiProcess_Triangulate; aiProcess_JoinIdenticalVertices;
        aiProcess_ValidateDataStructure; aiProcess_GenUVCoords; aiProcess_SortByPType].
Proof.
  destruct flipUvs; (split; [reflexivity|]); (split; [reflexivity|]); repeat constructor.
Qed.

(** X12. The first call assimpLoad makes is the importer's ReadFile on the
    given path with the import flags; bit 23 of the flags (aiProcess_FlipUVs)
    is set exactly when flipUvs is true, the remaining bits are the preset
    aiProcessPreset_TargetRealtime_MaxQuality, and the flags always include
    Triangulate, JoinIdenticalVertices, ValidateDataStructure, GenUVCoords and
    SortByPType. *)
Theorem assimpLoad_import_flags (assets : Assets) (path : string) (flipUvs : bool) (w : World) :
  head (issued (assimpLoad assets path flipUvs) w)
  = Some (ReadFile path (import_flags flipUvs))
  /\ Z.testbit (import_flags flipUvs) 23 = flipUvs
  /\ Z.clearbit (import_flags flipUvs) 23 = aiProcessPreset_TargetRealtime_MaxQuality
  /\ Forall (fun step => Z.land (import_flags flipUvs) step = step)
       [aiProcess_Triangulate; aiProcess_JoinIdenticalVertices;
        aiProcess_ValidateDataStructure; aiProcess_GenUVCoords; aiProcess_SortByPType].
Proof.
  split; [|apply import_flags_bits].
  assert (Hhead : forall (w' : World) (rest : list Call),
            log w' = log w ++ ReadFile path (import_flags flipUvs) :: rest ->
            head (drop (length (log w)) (log w'))
            = Some (ReadFile path (import_flags flipUvs))).
  { intros w' rest ->. rewrite drop_app_length. reflexivity. }
  assert (Hissue : forall cmds : list GLCommand,
            log (issue cmds (record (ReadFile path (import_flags flipUvs)) w))
            = log w ++ ReadFile path (import_flags flipUvs) :: (GL <$> cmds)).
  { intros cmds. unfold issue. cbn [log record]. rewrite <- app_assoc. reflexivity. }
  unfold issued. rewrite assimpLoad_unfold.
  destruct (assets path) as [err|[meshes]].
  - eapply Hhead. cbn [world_of log]. rewrite <- app_assoc. reflexivity.
  - change (mkWorld (gl w) (log w ++ [ReadFile path (import_flags flipUvs)]))
      with (record (ReadFile path (import_flags flipUvs)) w).
    generalize (aiScene.mMeshes
                  (if flipUvs then FlipUVs_scene (aiScene.mk meshes) else aiScene.mk meshes)).
    intros ms. destruct ms as [|mesh rest].
    + apply (Hhead _ []). reflexivity.
    + rewrite load_first_mesh_cons. unfold mbind, Prog_bind.
      destruct (fromAssimpMesh_world_independent mesh [] []) as [[f|[vs fs]] Hr]; rewrite Hr.
      * apply (Hhead _ []). reflexivity.
      * destruct vs as [|v vs]; [|destruct fs as [|i fs]].
        -- rewrite constructMesh_no_vertices. eapply Hhead, Hissue.
        -- rewrite constructMesh_no_faces by discriminate. eapply Hhead, Hissue.
        -- rewrite constructMesh_run by discriminate. eapply Hhead, Hissue.
Qed.
End LoadMore.


(** ** More on the transform pipeline *)

Section TransformMore.
Local Open Scope R_scope.








End TransformMore.


(** ** Textures, shaders and the start of [main] *)

Section Startup.

Lemma xbind_returns {A B : Type} (p : ProgX A) (k : A -> ProgX B) (s s' : Machine) (a : A) :
  p s = XReturns a s' -> (p ≫= k) s = k a s'.
Proof. intros H. unfold mbind, ProgX_bind. rewrite H. reflexivity. Qed.

Lemma lift_returns {A : Type} (p : Prog A) (s : Machine) (a : A) (w : World) :
  p (world s) = Returns a w -> lift p s = XReturns a (mkMachine w (ext s)).
Proof. intros H. unfold lift. rewrite H. reflexivity. Qed.

Lemma generateTexture_run (texture : StbImage) (s : Machine) :
  generateTexture texture s
  = XReturns (tex_last (ext s) + 1)
      (mkMachine
         (record (GL (BindTexture GL_TEXTURE_2D (tex_last (ext s) + 1))) (world s))
         (mkExt (tex_last (ext s) + 1)
            (<[tex_last (ext s) + 1 := texture_of texture]> (tex_objects (ext s)))
            (ext_log (ext s) ++ generateTexture_calls (tex_last (ext s) + 1) texture))).
Proof.
  destruct s as [[g l] [last objects elog]].
  cbv [generateTexture glGenTextures glTexParameteri glTexImage2D glGenerateMipmap
       glBindTexture lift call record ext_call mbind ProgX_bind mret ProgX_ret
       world ext gl log tex_last tex_objects ext_log gl_exec gl_texture_2d tex_exec
       set_parameter].
  rewrite (decide_True (P := 0 = 0)) by reflexivity.
  rewrite !lookup_insert_eq. cbn [default tex_wrap_s tex_wrap_t tex_min_filter
    tex_mag_filter tex_image tex_mipmaps].
  rewrite !insert_insert_eq.
  rewrite bool_decide_eq_true_2 by eauto.
  unfold generateTexture_calls. cbn [fmap list_fmap]. rewrite <- !app_assoc.
  reflexivity.
Qed.

Lemma bind_texture_same_objects (target : GLenum) (n : Z) (g : GLState) :
  same_objects g (gl_exec (BindTexture target n) g)
  /\ gl_vertex_array (gl_exec (BindTexture target n) g) = gl_vertex_array g
  /\ gl_wf g = gl_wf (gl_exec (BindTexture target n) g).
Proof. unfold same_objects. cbn. auto 10. Qed.

(** X18. generateTexture always returns a fresh texture name (the previous
    last name plus one); under that name the texture has wrap REPEAT in S and
    T, minification LINEAR_MIPMAP_LINEAR, magnification LINEAR, the image at
    level 0 as RGBA unsigned bytes with the image's width and height, and
    mipmaps generated; every other texture is unchanged; the new texture is
    left bound to GL_TEXTURE_2D (the function does not unbind it), and vertex
    arrays and buffers are untouched. *)
Theorem generateTexture_uploads_and_stays_bound (texture : StbImage) (s : Machine) :
  exists s',
    generateTexture texture s = XReturns (tex_last (ext s) + 1) s'
    /\ tex_objects (ext s') !! (tex_last (ext s) + 1) = Some (texture_of texture)
    /\ (forall n, n <> tex_last (ext s) + 1 ->
                  tex_objects (ext s') !! n = tex_objects (ext s) !! n)
    /\ tex_last (ext s') = tex_last (ext s) + 1
    /\ gl_texture_2d (gl (world s')) = tex_last (ext s) + 1
    /\ gl_vertex_array (gl (world s')) = gl_vertex_array (gl (world s))
    /\ same_objects (gl (world s)) (gl (world s')).
Proof.
  eexists. split; [apply generateTexture_run|].
  cbn [ext world tex_objects tex_last record gl].
  split; [apply lookup_insert_eq|].
  split; [intros n Hn; apply lookup_insert_ne; congruence|].
  split; [reflexivity|]. split; [reflexivity|]. split; [reflexivity|].
  apply bind_texture_same_objects.
Qed.

(** X19. Two calls of generateTexture in sequence return two different names,
    each name holds the texture of its own image afterwards (the second upload
    does not overwrite the first), and the second texture is the one left
    bound. *)
Theorem generateTexture_twice (first second : StbImage) (s : Machine) :
  exists t1 t2 s',
    (t1 ← generateTexture first; t2 ← generateTexture second; mret (t1, t2)) s
    = XReturns (t1, t2) s'
    /\ t1 <> t2
    /\ tex_objects (ext s') !! t1 = Some (texture_of first)
    /\ tex_objects (ext s') !! t2 = Some (texture_of second)
    /\ gl_texture_2d (gl (world s')) = t2.
Proof.
  eexists _, _, _. split.
  - erewrite xbind_returns by apply generateTexture_run.
    erewrite xbind_returns by apply generateTexture_run. reflexivity.
  - cbn [ext world tex_objects tex_last record gl gl_exec gl_texture_2d].
    split; [lia|]. split; [|split; [|reflexivity]].
    + rewrite lookup_insert_ne by lia. apply lookup_insert_eq.
    + apply lookup_insert_eq.
Qed.

Lemma log_issue (cmds : list GLCommand) (w : World) :
  log (issue cmds w) = log w ++ (GL <$> cmds).
Proof. reflexivity. Qed.

Lemma gl_issue_resident (cmds : list GLCommand) (w : World) (vertices : list Vertex3D)
    (faces : list Z) :
  vertices <> [] -> faces <> [] -> gl_wf (gl w) ->
  cmds = constructMesh_commands (gl_last_vao (gl w) + 1) (gl_last_buffer (gl w) + 1)
           vertices faces ->
  mesh_resident (gl (issue cmds w))
    (Mesh.mk (gl_last_vao (gl w) + 1) (to_uint32 (size_of faces)) 0) vertices faces.
Proof.
  intros Hv Hf Hwf ->.
  pose proof (constructMesh_resident vertices faces w Hv Hf Hwf) as H.
  rewrite constructMesh_run in H by assumption. exact H.
Qed.

Lemma triangle_run (env : Environment) (s : Machine) :
  triangle env s
  = XReturns (Mesh.mk (gl_last_vao (gl (world s)) + 1) 3 (tex_last (ext s) + 1))
      (mkMachine
         (record (GL (BindTexture GL_TEXTURE_2D (tex_last (ext s) + 1)))
            (issue (constructMesh_commands (gl_last_vao (gl (world s)) + 1)
                      (gl_last_buffer (gl (world s)) + 1) triangleVertices triangleFaces)
               (world s)))
         (mkExt (tex_last (ext s) + 1)
            (<[tex_last (ext s) + 1 := texture_of (env_images env "models/wall.jpg")]>
               (tex_objects (ext s)))
            ((ext_log (ext s) ++ [LoadFromFile "models/wall.jpg"])
               ++ generateTexture_calls (tex_last (ext s) + 1)
                    (env_images env "models/wall.jpg")))).
Proof.
  unfold triangle.
  erewrite xbind_returns by (apply lift_returns, constructMesh_run; discriminate).
  erewrite xbind_returns by reflexivity.
  erewrite xbind_returns by apply generateTexture_run. reflexivity.
Qed.

(** X20. In a well-formed state triangle returns a mesh with the next vertex-
    array name, face count 3 and the fresh texture name; the mesh is resident
    with the three literal vertices and the indices 2, 1, 0, its texture is
    the one generated from models/wall.jpg, and drawing it issues one draw of
    3 elements. *)
Theorem triangle_is_textured_and_drawable (env : Environment) (s : Machine) :
  gl_wf (gl (world s)) ->
  exists m s',
    triangle env s = XReturns m s'
    /\ m = Mesh.mk (gl_last_vao (gl (world s)) + 1) 3 (tex_last (ext s) + 1)
    /\ mesh_resident (gl (world s')) m triangleVertices triangleFaces
    /\ tex_objects (ext s') !! Mesh.texture m
       = Some (texture_of (env_images env "models/wall.jpg"))
    /\ draw_commands (issued (drawMesh m) (world s'))
       = [DrawElements GL_TRIANGLES 3 GL_UNSIGNED_INT].
Proof.
  intros Hwf. eexists _, _. split; [apply triangle_run|].
  split; [reflexivity|]. split; [|split].
  - cbn [world].
    eapply same_objects_resident; [apply bind_texture_same_objects|].
    apply (gl_issue_resident _ (world s) triangleVertices triangleFaces);
      [discriminate | discriminate | exact Hwf | reflexivity].
  - cbn [ext tex_objects Mesh.texture]. apply lookup_insert_eq.
  - erewrite issued_issue by (rewrite drawMesh_run; reflexivity). reflexivity.
Qed.

Lemma lift_exits {A : Type} (p : Prog A) (s : Machine) (status : Z) (w : World) :
  p (world s) = Exits status w -> lift p s = XExits status (mkMachine w (ext s)).
Proof. intros H. unfold lift. rewrite H. reflexivity. Qed.

Lemma bunny_run (env : Environment) (s : Machine) (obj : Mesh) (w1 : World) :
  assimpLoad (env_assets env) bunny_obj true (world s) = Returns obj w1 ->
  bunny env s
  = XReturns (with_texture (tex_last (ext s) + 1) obj)
      (mkMachine
         (record (GL (BindTexture GL_TEXTURE_2D (tex_last (ext s) + 1))) w1)
         (mkExt (tex_last (ext s) + 1)
            (<[tex_last (ext s) + 1 := texture_of (env_images env bunny_jpg)]>
               (tex_objects (ext s)))
            ((ext_log (ext s) ++ [LoadFromFile bunny_jpg])
               ++ generateTexture_calls (tex_last (ext s) + 1) (env_images env bunny_jpg)))).
Proof.
  intros H. unfold bunny.
  erewrite xbind_returns by (apply lift_returns; exact H).
  erewrite xbind_returns by reflexivity.
  erewrite xbind_returns by apply generateTexture_run. reflexivity.
Qed.

Lemma bunny_failure (env : Environment) (s : Machine) (err : string) :
  env_assets env bunny_obj = inl err ->
  bunny env s
  = XExits 1
      (mkMachine
         (mkWorld (gl (world s))
            (log (world s) ++ [ReadFile bunny_obj (import_flags true);
                               Stdout ("ASSIMP ERROR" ++ err ++ endl)]))
         (ext s)).
Proof.
  intros H. unfold bunny, mbind, ProgX_bind.
  erewrite lift_exits; [reflexivity|].
  rewrite assimpLoad_unfold. fold bunny_obj. rewrite H, <- app_assoc. reflexivity.
Qed.

(** X21. When the importer cannot read models/bunny_textured.obj, bunny exits
    with status 1 having issued only the ReadFile call and the ASSIMP ERROR
    line: no image is loaded, no texture is generated and the OpenGL state is
    unchanged. *)
Theorem bunny_stops_before_texture (env : Environment) (s : Machine) (err : string) :
  env_assets env bunny_obj = inl err ->
  exists s',
    bunny env s = XExits 1 s'
    /\ ext s' = ext s
    /\ gl (world s') = gl (world s)
    /\ xissued (bunny env) s
       = [ReadFile bunny_obj (import_flags true); Stdout ("ASSIMP ERROR" ++ err ++ endl)].
Proof.
  intros H. eexists. split; [apply bunny_failure, H|].
  split; [reflexivity|]. split; [reflexivity|].
  unfold xissued. rewrite (bunny_failure env s err H). cbn [machine_of world log].
  apply drop_app_length.
Qed.

(** X22. When models/bunny_textured.obj holds a first mesh with vertices and
    faces of at least three indices, bunny returns a mesh on the next vertex-
    array name with face count 3 * mNumFaces modulo 2^32 and the fresh texture
    name; the mesh is resident with the imported geometry, its texture is the
    one generated from models/bunny_textured.jpg, and the file was read first,
    with the FlipUVs bit set in the import flags. *)
Theorem bunny_is_flipped_and_textured (env : Environment) (s : Machine)
    (mesh : aiMesh) (rest : list aiMesh) :
  env_assets env bunny_obj = inr (aiScene.mk (mesh :: rest)) ->
  Forall (fun f => (3 <= aiFace.mNumIndices f)%nat) (aiMesh.mFaces mesh) ->
  aiMesh.mVertices mesh <> [] -> aiMesh.mFaces mesh <> [] ->
  gl_wf (gl (world s)) ->
  exists m s',
    bunny env s = XReturns m s'
    /\ m = Mesh.mk (gl_last_vao (gl (world s)) + 1)
             ((3 * Z.of_nat (aiMesh.mNumFaces mesh)) mod 2 ^ 32)
             (tex_last (ext s) + 1)
    /\ mesh_resident (gl (world s')) m (imported_vertex <$> aiMesh.mVertices mesh)
         (concat (face_indices <$> aiMesh.mFaces mesh))
    /\ tex_objects (ext s') !! Mesh.texture m = Some (texture_of (env_images env bunny_jpg))
    /\ head (xissued (bunny env) s) = Some (ReadFile bunny_obj (import_flags true))
    /\ Z.testbit (import_flags true) 23 = true.
Proof.
  intros H Hall Hv Hf Hwf.
  destruct (assimpLoad_run (env_assets env) bunny_obj true (world s) mesh rest H Hall Hv Hf)
    as (Hvs & Hfs & Hrun).
  set (vs := imported_vertex <$> aiMesh.mVertices mesh) in *.
  set (fs := concat (face_indices <$> aiMesh.mFaces mesh)) in *.
  set (w1 := record (ReadFile bunny_obj (import_flags true)) (world s)) in *.
  assert (Hwf1 : gl_wf (gl w1)) by exact Hwf.
  pose proof (constructMesh_resident vs fs w1 Hvs Hfs Hwf1) as Hres.
  rewrite constructMesh_run in Hres, Hrun by assumption. cbn [world_of] in Hres.
  assert (Hfaces : to_uint32 (size_of fs) = (3 * Z.of_nat (aiMesh.mNumFaces mesh)) mod 2 ^ 32).
  { unfold to_uint32. subst fs. rewrite face_indices_length by exact Hall. reflexivity. }
  eexists _, _. split; [apply (bunny_run env s _ _ Hrun)|].
  split; [|split; [|split; [|split]]].
  - unfold with_texture. cbn [Mesh.vao Mesh.faces]. rewrite Hfaces. reflexivity.
  - cbn [world record gl].
    destruct Hres as (Hcount & va & vbo & Hva & Hrest).
    split; [exact Hcount|]. exists va, vbo. auto.
  - cbn [ext tex_objects with_texture Mesh.texture]. apply lookup_insert_eq.
  - unfold xissued. rewrite (bunny_run env s _ _ Hrun).
    cbn [machine_of world log record issue w1]. rewrite <- !app_assoc, drop_app_length.
    reflexivity.
  - reflexivity.
Qed.

(** X23. textureShader makes exactly one load of
    shaders/texture_perspective.vert with shaders/texturing.frag; if the load
    throws with message what, it prints ERROR: what and a newline on standard
    output and exits with status 1 without touching OpenGL; if the load
    succeeds it returns the loaded program and prints nothing. *)
Theorem textureShader_outcomes (env : Environment) (s : Machine) :
  (forall what : string,
      env_shader_error env vertex_shader fragment_shader = Some what ->
      exists s',
        textureShader env s = XExits 1 s'
        /\ log (world s') = log (world s) ++ [Stdout ("ERROR: " ++ what ++ endl)]
        /\ gl (world s') = gl (world s))
  /\ (env_shader_error env vertex_shader fragment_shader = None ->
      exists s',
        textureShader env s
        = XReturns (mkShaderProgram (Some (vertex_shader, fragment_shader))) s'
        /\ world s' = world s)
  /\ ext_log (ext (machine_of (textureShader env s)))
     = ext_log (ext s) ++ [ShaderLoad vertex_shader fragment_shader].
Proof.
  unfold textureShader, ShaderProgram_load. fold vertex_shader fragment_shader.
  split; [|split].
  - intros what H. erewrite xbind_returns
      by (erewrite xbind_returns by reflexivity; rewrite H; reflexivity).
    eexists. split; [reflexivity|]. split; reflexivity.
  - intros H. erewrite xbind_returns
      by (erewrite xbind_returns by reflexivity; rewrite H; reflexivity).
    eexists. split; reflexivity.
  - erewrite xbind_returns by (erewrite xbind_returns by reflexivity; reflexivity).
    destruct (env_shader_error env vertex_shader fragment_shader); reflexivity.
Qed.

Lemma xbind_stops {A B : Type} (p : ProgX A) (k : A -> ProgX B) (s : Machine) :
  xresult (p s) = None ->
  xresult ((p ≫= k) s) = None
  /\ machine_of ((p ≫= k) s) = machine_of (p s)
  /\ (forall status s', (p ≫= k) s = XExits status s' <-> p s = XExits status s').
Proof.
  unfold mbind, ProgX_bind. destruct (p s); cbn; intros H; [discriminate|..];
    (split; [reflexivity|split; [reflexivity|]]);
    intros status' s'; split; intros E; inversion E; reflexivity.
Qed.

Lemma assimpLoad_exit_status (assets : Assets) (path : string) (flipUvs : bool) (w : World)
    (status : Z) (w' : World) :
  assimpLoad assets path flipUvs w = Exits status w' ->
  status = 1 /\ exists err, assets path = inl err.
Proof.
  rewrite assimpLoad_unfold. destruct (assets path) as [err|scene].
  - intros [= <- _]. eauto.
  - unfold load_first_mesh, mbind, Prog_bind, at_index.
    destruct (_ !! 0%nat) as [mesh|]; [|discriminate].
    destruct (fromAssimpMesh_world_independent mesh [] []) as [[f|[vs fs]] Hr]; rewrite Hr;
      [discriminate|].
    destruct vs as [|v vs]; [rewrite constructMesh_no_vertices; discriminate|].
    destruct fs as [|i fs]; [rewrite constructMesh_no_faces by discriminate; discriminate|].
    rewrite constructMesh_run by discriminate. discriminate.
Qed.

Lemma assimpLoad_returns_shape (assets : Assets) (path : string) (flipUvs : bool)
    (w : World) (obj : Mesh) (w1 : World) :
  assimpLoad assets path flipUvs w = Returns obj w1 ->
  exists cmds, w1 = issue cmds (record (ReadFile path (import_flags flipUvs)) w).
Proof.
  rewrite assimpLoad_unfold. destruct (assets path) as [err|scene]; [discriminate|].
  unfold load_first_mesh, mbind, Prog_bind, at_index.
  destruct (_ !! 0%nat) as [mesh|]; [|discriminate].
  destruct (fromAssimpMesh_world_independent mesh [] []) as [[f|[vs fs]] Hr]; rewrite Hr;
    [discriminate|].
  destruct vs as [|v vs]; [rewrite constructMesh_no_vertices; discriminate|].
  destruct fs as [|i fs]; [rewrite constructMesh_no_faces by discriminate; discriminate|].
  rewrite constructMesh_run by discriminate. intros [= _ <-]. eauto.
Qed.

Lemma frames_presented_gl (cmds : list GLCommand) : frames_presented (GL <$> cmds) = 0%nat.
Proof. induction cmds as [|c cmds IH]; [reflexivity | exact IH]. Qed.

Lemma main_start (env : Environment) (s : Machine) :
  main env s
  = (obj ← bunny env;
     program ← textureShader env;
     ext_call Activate;;
     lift (main_loop obj (glm.vec3.mk 0 0 (-3)) (glm.vec3.mk 0 0 0) (glm.vec3.mk 3 3 3)
             (env_start env) (env_frames env)))
      (started env s).
Proof.
  unfold main. erewrite xbind_returns by reflexivity.
  erewrite xbind_returns by reflexivity. erewrite xbind_returns by reflexivity.
  unfold started, window_calls. cbn [ext_call world ext tex_last tex_objects ext_log].
  rewrite <- app_assoc. reflexivity.
Qed.

Lemma textureShader_run (env : Environment) (s : Machine) :
  textureShader env s
  = match env_shader_error env vertex_shader fragment_shader with
    | Some what =>
        XExits 1
          (mkMachine (record (Stdout ("ERROR: " ++ what ++ endl)) (world s))
             (mkExt (tex_last (ext s)) (tex_objects (ext s))
                (ext_log (ext s) ++ [ShaderLoad vertex_shader fragment_shader])))
    | None =>
        XReturns (mkShaderProgram (Some (vertex_shader, fragment_shader)))
          (mkMachine (world s)
             (mkExt (tex_last (ext s)) (tex_objects (ext s))
                (ext_log (ext s) ++ [ShaderLoad vertex_shader fragment_shader])))
    end.
Proof.
  unfold textureShader, ShaderProgram_load. fold vertex_shader fragment_shader.
  erewrite xbind_returns by (erewrite xbind_returns by reflexivity; reflexivity).
  destruct (env_shader_error env vertex_shader fragment_shader); reflexivity.
Qed.

(** X24. main can return only 0, and can exit only with status 1; when it
    exits no frame has been presented, and the cause is either the asset that
    could not be read or the shader that could not be loaded. *)
Theorem main_exit_status (env : Environment) (s : Machine) :
  match main env s with
  | XReturns r _ => r = 0
  | XExits status s' =>
      status = 1
      /\ frames_presented (xissued (main env) s) = 0%nat
      /\ ((exists err, env_assets env bunny_obj = inl err)
          \/ (exists what, env_shader_error env vertex_shader fragment_shader = Some what))
  | _ => True
  end.
Proof.
  unfold xissued. remember (main env s) as r eqn:Hr. rewrite main_start in Hr.
  set (s0 := started env s) in Hr.
  destruct (assimpLoad (env_assets env) bunny_obj true (world s0)) as [obj w1|st w1|f w1|w1]
    eqn:E.
  - erewrite xbind_returns in Hr by (apply bunny_run; exact E).
    unfold mbind at 1, ProgX_bind at 1 in Hr. rewrite textureShader_run in Hr.
    destruct (env_shader_error env vertex_shader fragment_shader) as [what|] eqn:Es.
    + subst r. cbn [machine_of world log record]. split; [reflexivity|]. split; [|eauto].
      apply assimpLoad_returns_shape in E as [cmds ->].
      unfold issue, s0, started. cbn [log world record].
      rewrite <- !app_assoc, drop_app_length.
      rewrite !frames_presented_app, frames_presented_gl. reflexivity.
    + erewrite xbind_returns in Hr by reflexivity.
      unfold lift in Hr. cbn [world] in Hr.
      match type of Hr with
      | context [main_loop ?o ?p ?q ?sc ?st ?fr ?w] =>
          destruct (main_loop_never_exits o p q sc st fr w) as [w' [Hl | Hl]]
      end; rewrite Hl in Hr; subst r; [reflexivity | exact I].
  - apply assimpLoad_exit_status in E as Hst. destruct Hst as [-> [err Herr]].
    unfold mbind at 1, ProgX_bind at 1 in Hr.
    rewrite (bunny_failure env s0 err Herr) in Hr. subst r.
    cbn [machine_of world log s0 started record].
    split; [reflexivity|]. split; [|eauto].
    rewrite <- app_assoc, drop_app_length. reflexivity.
  - unfold bunny, lift, mbind, ProgX_bind in Hr. unfold bunny_obj in E.
    rewrite E in Hr. subst r. exact I.
  - unfold bunny, lift, mbind, ProgX_bind in Hr. unfold bunny_obj in E.
    rewrite E in Hr. subst r. exact I.
Qed.

(** [main] up to the shader, when the asset has geometry. *)
Lemma main_after_bunny (env : Environment) (s : Machine) (mesh : aiMesh) (rest : list aiMesh) :
  env_assets env bunny_obj = inr (aiScene.mk (mesh :: rest)) ->
  Forall (fun f => (3 <= aiFace.mNumIndices f)%nat) (aiMesh.mFaces mesh) ->
  aiMesh.mVertices mesh <> [] -> aiMesh.mFaces mesh <> [] ->
  let vs := imported_vertex <$> aiMesh.mVertices mesh in
  let fs := concat (face_indices <$> aiMesh.mFaces mesh) in
  let cmds := constructMesh_commands (gl_last_vao (gl (world s)) + 1)
                (gl_last_buffer (gl (world s)) + 1) vs fs in
  let obj := Mesh.mk (gl_last_vao (gl (world s)) + 1) (to_uint32 (size_of fs))
               (tex_last (ext s) + 1) in
  let w2 := record (GL (BindTexture GL_TEXTURE_2D (tex_last (ext s) + 1)))
              (issue cmds (record (ReadFile bunny_obj (import_flags true))
                             (record (Stdout (env_cwd env ++ endl)) (world s)))) in
  let e2 := mkExt (tex_last (ext s) + 1)
              (<[tex_last (ext s) + 1 := texture_of (env_images env bunny_jpg)]>
                 (tex_objects (ext s)))
              ((((ext_log (ext s) ++ window_calls) ++ [LoadFromFile bunny_jpg])
                  ++ generateTexture_calls (tex_last (ext s) + 1) (env_images env bunny_jpg))
                 ++ [ShaderLoad vertex_shader fragment_shader]) in
  main env s
  = match env_shader_error env vertex_shader fragment_shader with
    | Some what =>
        XExits 1 (mkMachine (record (Stdout ("ERROR: " ++ what ++ endl)) w2) e2)
    | None =>
        (ext_call Activate;;
         lift (main_loop obj (glm.vec3.mk 0 0 (-3)) (glm.vec3.mk 0 0 0) (glm.vec3.mk 3 3 3)
                 (env_start env) (env_frames env)))
          (mkMachine w2 e2)
    end.
Proof.
  intros H Hall Hv Hf vs fs cmds obj w2 e2.
  set (s0 := started env s).
  destruct (assimpLoad_run (env_assets env) bunny_obj true (world s0) mesh rest H Hall Hv Hf)
    as (Hvs & Hfs & Hrun).
  rewrite constructMesh_run in Hrun by assumption.
  rewrite main_start. fold s0.
  erewrite xbind_returns by (apply bunny_run; exact Hrun).
  unfold mbind at 1, ProgX_bind at 1. rewrite textureShader_run.
  destruct (env_shader_error env vertex_shader fragment_shader); reflexivity.
Qed.

Lemma resident_with_texture (g : GLState) (m : Mesh) (n : Z) (vertices : list Vertex3D)
    (faces : list Z) :
  mesh_resident g m vertices faces -> mesh_resident g (with_texture n m) vertices faces.
Proof. intros H. exact H. Qed.

(** X25. When the asset loads but the shader does not, main exits with status
    1 after the work for the bunny is already done: it has printed the working
    directory, read the asset, issued the whole mesh construction and bound
    the new texture before printing the shader ERROR line; the bunny's texture
    exists when the program exits, and the shader load is the last call made
    to the window, image, texture and shader interfaces, so nothing is
    activated after the failed load. *)
Theorem main_shader_failure (env : Environment) (s : Machine) (mesh : aiMesh)
    (rest : list aiMesh) (what : string) :
  env_assets env bunny_obj = inr (aiScene.mk (mesh :: rest)) ->
  Forall (fun f => (3 <= aiFace.mNumIndices f)%nat) (aiMesh.mFaces mesh) ->
  aiMesh.mVertices mesh <> [] -> aiMesh.mFaces mesh <> [] ->
  gl_wf (gl (world s)) ->
  env_shader_error env vertex_shader fragment_shader = Some what ->
  exists s',
    main env s = XExits 1 s'
    /\ xissued (main env) s
       = [Stdout (env_cwd env ++ endl); ReadFile bunny_obj (import_flags true)]
         ++ (GL <$> constructMesh_commands (gl_last_vao (gl (world s)) + 1)
                      (gl_last_buffer (gl (world s)) + 1)
                      (imported_vertex <$> aiMesh.mVertices mesh)
                      (concat (face_indices <$> aiMesh.mFaces mesh)))
         ++ [GL (BindTexture GL_TEXTURE_2D (tex_last (ext s) + 1));
             Stdout ("ERROR: " ++ what ++ endl)]
    /\ tex_objects (ext s') !! (tex_last (ext s) + 1)
       = Some (texture_of (env_images env bunny_jpg))
    /\ last (ext_log (ext s')) = Some (ShaderLoad vertex_shader fragment_shader).
Proof.
  intros H Hall Hv Hf Hwf Hs.
  pose proof (main_after_bunny env s mesh rest H Hall Hv Hf) as Hmain.
  cbv zeta in Hmain. rewrite Hs in Hmain.
  eexists. split; [exact Hmain|]. split; [|split].
  - unfold xissued. rewrite Hmain. cbn [machine_of world log record].
    rewrite log_issue. cbn [log record].
    rewrite <- !app_assoc, drop_app_length. reflexivity.
  - cbn [ext tex_objects]. apply lookup_insert_eq.
  - cbn [ext ext_log]. apply last_snoc.
Qed.

End Startup.


(** ** Instances *)

Lemma triangle_world_wf : gl_wf (gl triangle_world).
Proof. apply constructMesh_wf; [discriminate | discriminate | apply gl_wf_init]. Qed.

Lemma constructMesh_makes_resident_witness :
  exists m w',
    constructMesh triangleVertices triangleFaces world_init = Returns m w'
    /\ mesh_resident (gl w') m triangleVertices triangleFaces
    /\ (va_attribs <$> gl_vaos (gl w') !! Mesh.vao m)
       = Some {[ 0 := mkAttrib 3 GL_FLOAT false sizeof_Vertex3D 0
                        (gl_last_buffer (gl world_init) + 1) ]}
    /\ (va_enabled <$> gl_vaos (gl w') !! Mesh.vao m) = Some {[ 0 ]}.
Proof.
  apply constructMesh_makes_resident; [discriminate | discriminate | apply gl_wf_init].
Defined.

Lemma constructMesh_keeps_wf_witness :
  gl_wf (gl (world_of (constructMesh triangleVertices triangleFaces world_init)))
  /\ gl_vertex_array (gl (world_of (constructMesh triangleVertices triangleFaces world_init)))
     = 0
  /\ gl_array_buffer (gl (world_of (constructMesh triangleVertices triangleFaces world_init)))
     = gl_last_buffer (gl world_init) + 1
  /\ gl_texture_2d (gl (world_of (constructMesh triangleVertices triangleFaces world_init)))
     = gl_texture_2d (gl world_init).
Proof.
  apply constructMesh_keeps_wf; [discriminate | discriminate | apply gl_wf_init].
Defined.

Lemma triangle_world_resident :
  mesh_resident (gl triangle_world) triangleMesh triangleVertices triangleFaces.
Proof.
  apply (constructMesh_resident triangleVertices triangleFaces world_init);
    [discriminate | discriminate | apply gl_wf_init].
Qed.

Lemma constructMesh_preserves_meshes_witness :
  exists m w',
    constructMesh triangleVertices [0; 1; 2] triangle_world = Returns m w'
    /\ Mesh.vao m <> Mesh.vao triangleMesh
    /\ mesh_resident (gl w') triangleMesh triangleVertices triangleFaces
    /\ (forall n, n <> Mesh.vao m -> gl_vaos (gl w') !! n = gl_vaos (gl triangle_world) !! n)
    /\ (forall n, is_Some (gl_buffers (gl triangle_world) !! n) ->
                  gl_buffers (gl w') !! n = gl_buffers (gl triangle_world) !! n).
Proof.
  apply constructMesh_preserves_meshes;
    [discriminate | discriminate | apply triangle_world_wf | apply triangle_world_resident].
Defined.

(** A mesh of 3,000,000,000 indices, more than a [GLsizei] holds. *)
Lemma drawMesh_leaves_nothing_bound_witness :
  to_GLsizei (Mesh.faces (Mesh.mk 1 3 0)) = Mesh.faces (Mesh.mk 1 3 0)
  /\ to_GLsizei (Mesh.faces (Mesh.mk 1 3000000000 0))
     = Mesh.faces (Mesh.mk 1 3000000000 0) - 2 ^ 32
  /\ to_GLsizei (Mesh.faces (Mesh.mk 1 3000000000 0)) < 0.
Proof.
  destruct (drawMesh_leaves_nothing_bound (Mesh.mk 1 3 0) world_init)
    as (w1 & _ & _ & _ & _ & _ & Hsmall & _).
  destruct (drawMesh_leaves_nothing_bound (Mesh.mk 1 3000000000 0) world_init)
    as (w2 & _ & _ & _ & _ & _ & _ & Hlarge).
  split; [apply Hsmall; cbn; lia | apply Hlarge; cbn; lia].
Defined.

Lemma draw_after_constructMesh_witness :
  exists m w',
    (m ← constructMesh triangleVertices triangleFaces; drawMesh m;; mret m) world_init
    = Returns m w'
    /\ draw_commands
         (issued (m ← constructMesh triangleVertices triangleFaces; drawMesh m;; mret m)
            world_init)
       = [DrawElements GL_TRIANGLES (to_GLsizei (size_of triangleFaces mod 2 ^ 32))
            GL_UNSIGNED_INT]
    /\ mesh_resident (gl w') m triangleVertices triangleFaces
    /\ gl_vertex_array (gl w') = 0.
Proof.
  apply draw_after_constructMesh; [discriminate | discriminate | apply gl_wf_init].
Defined.

Lemma fromAssimpMesh_takes_three_per_face_witness :
  fromAssimpMesh quadMesh [] [] world_init
  = Returns ([] ++ (imported_vertex <$> aiMesh.mVertices quadMesh),
             [] ++ concat (face_indices <$> aiMesh.mFaces quadMesh)) world_init.
Proof.
  apply fromAssimpMesh_takes_three_per_face. repeat constructor.
Defined.


Lemma assimpLoad_empty_geometry_witness :
  exists w',
    assimpLoad (assets_of (aiScene.mk [pointCloud])) "models/bunny_textured.obj" true world_init
    = Undefined (IndexOutOfRange 0 0) w'
    /\ gl_last_vao (gl w') = gl_last_vao (gl world_init) + 1.
Proof.
  apply (assimpLoad_empty_geometry _ _ _ _ pointCloud []).
  - reflexivity.
  - constructor.
  - right. reflexivity.
Defined.

Lemma assimpLoad_builds_first_mesh_witness :
  exists m w',
    assimpLoad (assets_of (aiScene.mk [texturedTriangle])) "models/bunny_textured.obj" true
      world_init
    = Returns m w'
    /\ m = Mesh.mk (gl_last_vao (gl world_init) + 1)
             ((3 * Z.of_nat (aiMesh.mNumFaces texturedTriangle)) mod 2 ^ 32) 0
    /\ mesh_resident (gl w') m (imported_vertex <$> aiMesh.mVertices texturedTriangle)
         (concat (face_indices <$> aiMesh.mFaces texturedTriangle))
    /\ gl_wf (gl w')
    /\ attribute_commands
         (issued (assimpLoad (assets_of (aiScene.mk [texturedTriangle]))
                    "models/bunny_textured.obj" true) world_init)
       = [VertexAttribPointer 0 3 GL_FLOAT false sizeof_Vertex3D 0].
Proof.
  apply (assimpLoad_builds_first_mesh _ _ _ _ texturedTriangle []).
  - reflexivity.
  - repeat constructor.
  - discriminate.
  - discriminate.
  - apply gl_wf_init.
Defined.

Lemma renderLoop_keeps_objects_witness :
  mesh_resident
    (gl (world_of (renderLoop triangleMesh (glm.vec3.mk 0 0 (-3)) (glm.vec3.mk 0 0 0)
                     (glm.vec3.mk 3 3 3) demo_frames true 0 triangle_world)))
    triangleMesh triangleVertices triangleFaces.
Proof.
  apply (proj2 (renderLoop_keeps_objects triangleMesh (glm.vec3.mk 0 0 (-3))
                  (glm.vec3.mk 0 0 0) (glm.vec3.mk 3 3 3) demo_frames true 0 triangle_world)).
  apply triangle_world_resident.
Defined.

Lemma main_loop_presents_frames_witness :
  frames_presented
    (issued (main_loop triangleMesh (glm.vec3.mk 0 0 (-3)) (glm.vec3.mk 0 0 0)
               (glm.vec3.mk 3 3 3) 0
               ([mkFrame [Resized] 16 (1200, 800)]
                  ++ mkFrame [MouseMoved; Closed] 33 (1200, 800)
                     :: [mkFrame [] 50 (1200, 800)])) triangle_world)
  = 2%nat
  /\ draw_commands
       (issued (main_loop triangleMesh (glm.vec3.mk 0 0 (-3)) (glm.vec3.mk 0 0 0)
                  (glm.vec3.mk 3 3 3) 0
                  ([mkFrame [Resized] 16 (1200, 800)]
                     ++ mkFrame [MouseMoved; Closed] 33 (1200, 800)
                        :: [mkFrame [] 50 (1200, 800)])) triangle_world)
     = replicate 2
         (DrawElements GL_TRIANGLES (to_GLsizei (Mesh.faces triangleMesh)) GL_UNSIGNED_INT).
Proof.
  apply (main_loop_presents_frames triangleMesh (glm.vec3.mk 0 0 (-3)) (glm.vec3.mk 0 0 0)
           (glm.vec3.mk 3 3 3) [mkFrame [Resized] 16 (1200, 800)]
           (mkFrame [MouseMoved; Closed] 33 (1200, 800)) [mkFrame [] 50 (1200, 800)]
           0 triangle_world).
  - repeat constructor. cbn [frame_events]. rewrite list_elem_of_singleton. discriminate.
  - cbn [frame_events]. apply list_elem_of_further, list_elem_of_here.
Defined.

Lemma triangle_is_textured_and_drawable_witness :
  exists m s',
    triangle demo_env machine_init = XReturns m s'
    /\ m = Mesh.mk (gl_last_vao (gl (world machine_init)) + 1) 3
             (tex_last (ext machine_init) + 1)
    /\ mesh_resident (gl (world s')) m triangleVertices triangleFaces
    /\ tex_objects (ext s') !! Mesh.texture m
       = Some (texture_of (env_images demo_env "models/wall.jpg"))
    /\ draw_commands (issued (drawMesh m) (world s'))
       = [DrawElements GL_TRIANGLES 3 GL_UNSIGNED_INT].
Proof.
  apply triangle_is_textured_and_drawable. apply gl_wf_init.
Defined.

Lemma bunny_stops_before_texture_witness :
  exists s',
    bunny broken_asset_env machine_init = XExits 1 s'
    /\ ext s' = ext machine_init
    /\ gl (world s') = gl (world machine_init)
    /\ xissued (bunny broken_asset_env) machine_init
       = [ReadFile bunny_obj (import_flags true);
          Stdout ("ASSIMP ERROR" ++ "no such file" ++ endl)].
Proof.
  apply bunny_stops_before_texture. reflexivity.
Defined.

Lemma bunny_is_flipped_and_textured_witness :
  exists m s',
    bunny demo_env machine_init = XReturns m s'
    /\ m = Mesh.mk (gl_last_vao (gl (world machine_init)) + 1)
             ((3 * Z.of_nat (aiMesh.mNumFaces texturedTriangle)) mod 2 ^ 32)
             (tex_last (ext machine_init) + 1)
    /\ mesh_resident (gl (world s')) m (imported_vertex <$> aiMesh.mVertices texturedTriangle)
         (concat (face_indices <$> aiMesh.mFaces texturedTriangle))
    /\ tex_objects (ext s') !! Mesh.texture m
       = Some (texture_of (env_images demo_env bunny_jpg))
    /\ head (xissued (bunny demo_env) machine_init)
       = Some (ReadFile bunny_obj (import_flags true))
    /\ Z.testbit (import_flags true) 23 = true.
Proof.
  apply (bunny_is_flipped_and_textured demo_env machine_init texturedTriangle []).
  - reflexivity.
  - repeat constructor.
  - discriminate.
  - discriminate.
  - apply gl_wf_init.
Defined.

Lemma textureShader_outcomes_witness :
  (exists s',
      textureShader broken_shader_env machine_init = XExits 1 s'
      /\ log (world s')
         = log (world machine_init) ++ [Stdout ("ERROR: " ++ "compile error" ++ endl)]
      /\ gl (world s') = gl (world machine_init))
  /\ (exists s',
        textureShader demo_env machine_init
        = XReturns (mkShaderProgram (Some (vertex_shader, fragment_shader))) s'
        /\ world s' = world machine_init).
Proof.
  split.
  - apply (proj1 (textureShader_outcomes broken_shader_env machine_init)). reflexivity.
  - apply (proj1 (proj2 (textureShader_outcomes demo_env machine_init))). reflexivity.
Defined.

Lemma main_shader_failure_witness :
  exists s',
    main broken_shader_env machine_init = XExits 1 s'
    /\ xissued (main broken_shader_env) machine_init
       = [Stdout (env_cwd broken_shader_env ++ endl); ReadFile bunny_obj (import_flags true)]
         ++ (GL <$> constructMesh_commands (gl_last_vao (gl (world machine_init)) + 1)
                      (gl_last_buffer (gl (world machine_init)) + 1)
                      (imported_vertex <$> aiMesh.mVertices texturedTriangle)
                      (concat (face_indices <$> aiMesh.mFaces texturedTriangle)))
         ++ [GL (BindTexture GL_TEXTURE_2D (tex_last (ext machine_init) + 1));
             Stdout ("ERROR: " ++ "compile error" ++ endl)]
    /\ tex_objects (ext s') !! (tex_last (ext machine_init) + 1)
       = Some (texture_of (env_images broken_shader_env bunny_jpg))
    /\ last (ext_log (ext s')) = Some (ShaderLoad vertex_shader fragment_shader).
Proof.
  apply (main_shader_failure broken_shader_env machine_init texturedTriangle []).
  - reflexivity.
  - repeat constructor.
  - discriminate.
  - discriminate.
  - apply gl_wf_init.
  - reflexivity.
Defined.

